(** * gorc: the request-mapping layer of the Orchestrate client

    A shallow embedding of the Go package [client] (key/value, graph and
    event calls) and the properties of its path construction, precondition
    headers, ref extraction, pagination and error mapping.

    Go strings are byte sequences: they are [string] here (a list of 8-bit
    [ascii]).  Go's [+] on strings is [+:+]; it is written right-nested,
    which denotes the same string as Go's left-nested reading
    ([String.append] is associative). *)

From Stdlib Require Import Ascii ZArith Lia.
From stdpp Require Import base strings gmap list.

(** ** Pieces of the Go standard library used by the client *)

(** The one-byte string holding a double quote, byte 34 (the escaped quote
    of the Go source). *)
Definition dquote : string := String "034"%char "".

(** The separator passed to [strings.SplitAfter] and [strings.Join]. *)
Definition slash : ascii := "/"%char.

(** [strings.SplitAfter(s, sep)] for a one-byte separator, the only way the
    client calls it: [s] is cut after each occurrence of [sep], the
    separators stay attached to the pieces before them, and the result
    always has one piece more than there are separators.
    [splitAfterFrom] gives the first piece and the pieces that follow. *)
Fixpoint splitAfterFrom (sep : ascii) (s : string) : string * list string :=
  match s with
  | EmptyString => ("", [])
  | String c s' =>
      let '(piece, pieces) := splitAfterFrom sep s' in
      if decide (c = sep) then (String c "", piece :: pieces)
      else (String c piece, pieces)
  end.

Definition SplitAfter (s : string) (sep : ascii) : list string :=
  let '(piece, pieces) := splitAfterFrom sep s in piece :: pieces.

(** [strings.Split(s, sep)] for a one-byte separator: as [SplitAfter], with
    the separators dropped. *)
Fixpoint splitFrom (sep : ascii) (s : string) : string * list string :=
  match s with
  | EmptyString => ("", [])
  | String c s' =>
      let '(piece, pieces) := splitFrom sep s' in
      if decide (c = sep) then ("", piece :: pieces)
      else (String c piece, pieces)
  end.

Definition Split (s : string) (sep : ascii) : list string :=
  let '(piece, pieces) := splitFrom sep s in piece :: pieces.

(** [strings.Join(elems, sep)]. *)
Fixpoint Join (elems : list string) (sep : string) : string :=
  match elems with
  | [] => ""
  | [e] => e
  | e :: rest => e +:+ sep +:+ Join rest sep
  end.

(** [s[n:]]: the bytes of [s] from offset [n] on.  [None] stands for the
    run-time panic Go raises when [n] exceeds [len(s)]. *)
Fixpoint sliceFrom (n : nat) (s : string) : option string :=
  match n, s with
  | O, _ => Some s
  | S _, EmptyString => None
  | S n', String _ s' => sliceFrom n' s'
  end.

(** A byte occurs in a string. *)
Fixpoint occurs (c : ascii) (s : string) : bool :=
  match s with
  | EmptyString => false
  | String c' s' => bool_decide (c' = c) || occurs c s'
  end.

(** ** Data model *)

(** [Path]: the address of a value.  Its declaration lies outside the files
    modelled here; the three string fields are the ones the client reads
    and writes ([path.Collection], [path.Key], [path.Ref]). *)
Record Path := mkPath { Collection : string; Key : string; Ref : string }.

(** [json.RawMessage]: payload bytes kept undecoded. *)
Abbreviation RawMessage := string (only parsing).

(** The [uint64] counters, ordinals and timestamps are natural numbers
    ([N]); the client only carries them. *)
Record KVResult := mkKVResult {
  KVResult_Path : Path;
  KVResult_RawValue : RawMessage }.

Record KVResults := mkKVResults {
  KVResults_Count : N;
  KVResults_Results : list KVResult;
  Next : string }.

Record GraphResult := mkGraphResult {
  GraphResult_Path : Path;
  GraphResult_RawValue : RawMessage }.

Record GraphResults := mkGraphResults {
  GraphResults_Count : N;
  GraphResults_Results : list GraphResult }.

Record Event := mkEvent {
  Ordinal : N;
  Timestamp : N;
  Event_RawValue : RawMessage }.

Record EventResults := mkEventResults {
  EventResults_Count : N;
  EventResults_Results : list Event }.

Record OrchestrateError := mkOrchestrateError {
  Status : string;
  Message : string;
  Locator : string }.

(** Go's [error] interface, by the kinds of value the client can return:
    what the transport reports, what reading a body reports, what
    [encoding/json] reports, and the client's own [*OrchestrateError]. *)
Inductive error :=
  | TransportError (msg : string)
  | ReadError (msg : string)
  | JSONError (msg : string)
  | Orchestrate (e : OrchestrateError).

(** [new(KVResults)] and the like: Go's zero values. *)
Definition zeroOrchestrateError : OrchestrateError := mkOrchestrateError "" "" "".
Definition zeroKVResults : KVResults := mkKVResults 0 [] "".
Definition zeroGraphResults : GraphResults := mkGraphResults 0 [].
Definition zeroEventResults : EventResults := mkEventResults 0 [].

(** ** HTTP exchange *)

(** A response body: the bytes the stream delivers and, when reading breaks
    off, the error raised after them. *)
Record Body := mkBody { delivered : string; broken : option string }.

(** [http.Response], the fields the client reads. *)
Record Response := mkResponse {
  Resp_Status : string;
  StatusCode : Z;
  Header : gmap string string;
  Resp_Body : Body }.

(** [resp.Header.Get(key)]: the value stored under [key], the empty string
    when there is none. *)
Definition HeaderGet (resp : Response) (key : string) : string :=
  default "" (Header resp !! key).

(** [buf.ReadFrom(resp.Body)]: the bytes read and the read error, if any. *)
Definition ReadFrom (b : Body) : string * option error :=
  (delivered b, ReadError <$> broken b).

(** One call of [client.doRequest(method, trailingPath, headers, body)].
    [nil] headers are the empty map, a [nil] body is [None]. *)
Record Call := mkCall {
  Method : string;
  TrailingPath : string;
  Headers : gmap string string;
  ReqBody : option string }.

(** What [doRequest] hands back: a response, or the transport's error. *)
Inductive Reply :=
  | Responded (resp : Response)
  | Failed (msg : string).

(** ** Path construction (pure) *)

(** Returns the trailing URI part for a GET request. *)
Definition trailingGetURI (path : Path) : string :=
  if decide (Ref path ≠ "")
  then Collection path +:+ "/" +:+ Key path +:+ "/refs/" +:+ Ref path
  else Collection path +:+ "/" +:+ Key path.

(** Returns the trailing URI part for a PUT request. *)
Definition trailingPutURI (path : Path) : string :=
  Collection path +:+ "/" +:+ Key path.

(** Check if there is a subsequent page of key/value list results. *)
Definition HasNext (results : KVResults) : bool :=
  bool_decide (Next results ≠ "").

(** ** The effects of a call

    A call of the client can send requests, read and write objects it
    reaches through pointers, and panic.  The world it runs in records the
    requests handed to [doRequest], oldest first, and the objects behind
    pointers. *)

Definition loc := positive.

(** The objects a pointer of the client can reach: an address, a result
    envelope, or a value of one of the caller's own types [T]. *)
Inductive Cell (T : Type) :=
  | PathCell (p : Path)
  | KVResultCell (r : KVResult)
  | GraphResultCell (r : GraphResult)
  | EventCell (e : Event)
  | TargetCell (t : T).
Arguments PathCell {T} p.
Arguments KVResultCell {T} r.
Arguments GraphResultCell {T} r.
Arguments EventCell {T} e.
Arguments TargetCell {T} t.

Record World (T : Type) := mkWorld {
  sent : list Call;
  heap : gmap loc (Cell T) }.
Arguments mkWorld {T} sent heap.
Arguments sent {T} w.
Arguments heap {T} w.

(** A call either returns its Go results or panics. *)
Inductive Outcome (A : Type) :=
  | Returns (a : A)
  | Panics (msg : string).
Arguments Returns {A} a.
Arguments Panics {A} msg.

Definition Go (T A : Type) : Type := World T → World T * Outcome A.

#[global] Instance Go_ret {T} : MRet (Go T) := λ A a w, (w, Returns a).
#[global] Instance Go_bind {T} : MBind (Go T) := λ A B k m w,
  match m w with
  | (w', Returns a) => k a w'
  | (w', Panics msg) => (w', Panics msg)
  end.

(** The world after one more request. *)
Definition after {T} (w : World T) (call : Call) : World T :=
  mkWorld (sent w ++ [call]) (heap w).

Definition panic {T A} (msg : string) : Go T A := λ w, (w, Panics msg).

(** [*l]: a nil or dangling pointer panics. *)
Definition load {T} (l : loc) : Go T (Cell T) := λ w,
  match heap w !! l with
  | Some c => (w, Returns c)
  | None => (w, Panics "invalid memory address or nil pointer dereference")
  end.

(** [*l = c]. *)
Definition store {T} (l : loc) (c : Cell T) : Go T unit := λ w,
  (mkWorld (sent w) (<[l := c]> (heap w)), Returns ()).

(** [&Path{...}] and the like: a new object at an address not yet in use. *)
Definition alloc {T} (c : Cell T) : Go T loc := λ w,
  let l := fresh (dom (heap w)) in
  (mkWorld (sent w) (<[l := c]> (heap w)), Returns l).

Definition loadPath {T} (l : loc) : Go T Path :=
  c ← load l;
  match c with
  | PathCell p => mret p
  | _ => panic "invalid memory address or nil pointer dereference"
  end.

(** [pieces[i]]: indexing past the end panics. *)
Definition index {T} (pieces : list string) (i : nat) : Go T string :=
  match pieces !! i with
  | Some piece => mret piece
  | None => panic "index out of range"
  end.

(** ** [encoding/json], [net/url], [strconv]: taken as given *)

(** [json.NewDecoder(body).Decode(&target)]: decoding works on the target in
    place, so it takes the target as it is and gives it back as decoding
    left it, with the error if decoding failed. *)
Class Decoder (A : Type) := Decode : Body → A → A * option error.

(** [json.Unmarshal(raw, &target)], in the same way; the error is a
    decoding error of [encoding/json]. *)
Class Unmarshaler (A : Type) := Unmarshal : RawMessage → A → A * option string.

(** [json.NewEncoder(buf).Encode(value)]: the bytes written to [buf] and the
    encoding error, if any. *)
Class Encoder (V : Type) := Encode : V → string * option string.

(** ** The client *)

Section Client.
(** The caller's own types: [T] for decoding targets, [V] for values to
    store. *)
Context {T V : Type}.

(** [client.doRequest(method, trailingPath, headers, body)], as every call
    uses it, is the boundary of the model ([client.go] holds a variant
    without the headers: it prefixes [rootUri], authenticates, marks a PUT
    as JSON and runs the request).  [transport] answers a call, given the
    calls made before it. *)
Variable transport : list Call → Call → Reply.

(** [strconv.FormatInt(i, base)] and [url.Values.Encode()]. *)
Variable FormatInt : Z → Z → string.
Variable ValuesEncode : gmap string (list string) → string.

Context {errorDecoder : Decoder OrchestrateError} {listDecoder : Decoder KVResults}
        {eventsDecoder : Decoder EventResults} {graphDecoder : Decoder GraphResults}
        {unmarshaler : Unmarshaler (Cell T)} {encoder : Encoder V}.

(** [strconv.Itoa]. *)
Definition Itoa (i : Z) : string := FormatInt i 10%Z.

Definition doRequest (method trailingPath : string)
    (headers : gmap string string) (body : option string) : Go T Reply :=
  λ w, let call := mkCall method trailingPath headers body in
       (after w call, Returns (transport (sent w) call)).

(** Creates a new OrchestrateError from a given http.Response object.
    The error of [Decode] is dropped, as in the source. *)
Definition newError (resp : Response) : error :=
  let '(orchestrateError, _) := Decode (Resp_Body resp) zeroOrchestrateError in
  Orchestrate (mkOrchestrateError (Resp_Status resp)
                 (Message orchestrateError) (Locator orchestrateError)).

(** *** Key/value calls

    Pointer arguments that a function only reads ([*Path] of the writes
    and deletes, [*KVResults]) are passed as the object they point to;
    [GetPath] writes through its pointer and takes an address.  Result
    pointers are fresh objects and are returned as those objects, [nil]
    as [None]. *)

(** Get the value at a path. *)
Definition GetPath (path : loc) : Go T (option KVResult * option error) :=
  p ← loadPath path;
  reply ← doRequest "GET" (trailingGetURI p) ∅ None;
  match reply with
  | Failed err => mret (None, Some (TransportError err))
  | Responded resp =>
      if decide (StatusCode resp ≠ 200%Z) then mret (None, Some (newError resp))
      else
        let '(buf, err) := ReadFrom (Resp_Body resp) in
        match err with
        | Some err => mret (None, Some err)
        | None =>
            _ ← (if decide (Ref p = "") then
                   ref ← index (SplitAfter (HeaderGet resp "Content-Location") slash) 5;
                   store path (PathCell (mkPath (Collection p) (Key p) ref))
                 else mret ());
            p' ← loadPath path;
            mret (Some (mkKVResult p' buf), None)
        end
  end.

(** Get a collection-key pair's value. *)
Definition Get (collection key : string) : Go T (option KVResult * option error) :=
  path ← alloc (PathCell (mkPath collection key ""));
  GetPath path.

Definition doPut (path : Path) (headers : gmap string string) (value : string)
    : Go T (option Path * option error) :=
  reply ← doRequest "PUT" (trailingPutURI path) headers (Some value);
  match reply with
  | Failed err => mret (None, Some (TransportError err))
  | Responded resp =>
      if decide (StatusCode resp ≠ 201%Z) then mret (None, Some (newError resp))
      else
        ref ← index (SplitAfter (HeaderGet resp "Location") slash) 5;
        mret (Some (mkPath (Collection path) (Key path) ref), None)
  end.

(** Store a value to a collection-key pair. *)
Definition PutRaw (collection key : string) (value : string)
    : Go T (option Path * option error) :=
  doPut (mkPath collection key "") ∅ value.

Definition Put (collection key : string) (value : V)
    : Go T (option Path * option error) :=
  let '(buf, err) := Encode value in
  match err with
  | Some err => mret (None, Some (JSONError err))
  | None => PutRaw collection key buf
  end.

(** Store a value to a collection-key pair if the path's ref value is the
    latest. *)
Definition PutIfUnmodifiedRaw (path : Path) (value : string)
    : Go T (option Path * option error) :=
  let headers : gmap string string :=
    {[ "If-Match" := dquote +:+ Ref path +:+ dquote ]} in
  doPut path headers value.

Definition PutIfUnmodified (path : Path) (value : V)
    : Go T (option Path * option error) :=
  let '(buf, err) := Encode value in
  match err with
  | Some err => mret (None, Some (JSONError err))
  | None => PutIfUnmodifiedRaw path buf
  end.

(** Store a value to a collection-key pair if it doesn't already hold a
    value. *)
Definition PutIfAbsentRaw (collection key : string) (value : string)
    : Go T (option Path * option error) :=
  let headers : gmap string string :=
    {[ "If-None-Match" := dquote +:+ "*" +:+ dquote ]} in
  doPut (mkPath collection key "") headers value.

Definition PutIfAbsent (collection key : string) (value : V)
    : Go T (option Path * option error) :=
  let '(buf, err) := Encode value in
  match err with
  | Some err => mret (None, Some (JSONError err))
  | None => PutIfAbsentRaw collection key buf
  end.

(** Execute delete *)
Definition doDelete (trailingUri : string) (headers : gmap string string)
    : Go T (option error) :=
  reply ← doRequest "DELETE" trailingUri headers None;
  match reply with
  | Failed err => mret (Some (TransportError err))
  | Responded resp =>
      if decide (StatusCode resp ≠ 204%Z) then mret (Some (newError resp))
      else mret None
  end.

(** Delete the value held at a collection-key pair. *)
Definition Delete (collection key : string) : Go T (option error) :=
  doDelete (collection +:+ "/" +:+ key) ∅.

(** Delete the value held at a collection-key pair if the path's ref value
    is the latest. *)
Definition DeleteIfUnmodified (path : Path) : Go T (option error) :=
  let headers : gmap string string :=
    {[ "If-Match" := dquote +:+ Ref path +:+ dquote ]} in
  doDelete (trailingPutURI path) headers.

(** Delete the current and all previous values from a collection-key pair. *)
Definition Purge (collection key : string) : Go T (option error) :=
  doDelete (collection +:+ "/" +:+ key +:+ "?purge=true") ∅.

(** Delete a collection. *)
Definition DeleteCollection (collection : string) : Go T (option error) :=
  doDelete (collection +:+ "?force=true") ∅.

(** Execute a key/value list operation.  When decoding fails the partly
    decoded result is returned next to the error. *)
Definition doList (trailingUri : string) : Go T (option KVResults * option error) :=
  reply ← doRequest "GET" trailingUri ∅ None;
  match reply with
  | Failed err => mret (None, Some (TransportError err))
  | Responded resp =>
      if decide (StatusCode resp ≠ 200%Z) then mret (None, Some (newError resp))
      else
        let '(result, err) := Decode (Resp_Body resp) zeroKVResults in
        match err with
        | Some err => mret (Some result, Some err)
        | None => mret (Some result, None)
        end
  end.

(** List the values in a collection in key order with the specified page
    size. *)
Definition List (collection : string) (limit : Z)
    : Go T (option KVResults * option error) :=
  let queryVariables : gmap string (list string) :=
    {[ "limit" := [Itoa limit] ]} in
  doList (collection +:+ "?" +:+ ValuesEncode queryVariables).

Definition ListAfter (collection after : string) (limit : Z)
    : Go T (option KVResults * option error) :=
  let queryVariables : gmap string (list string) :=
    <[ "afterKey" := [after] ]> {[ "limit" := [Itoa limit] ]} in
  doList (collection +:+ "?" +:+ ValuesEncode queryVariables).

Definition ListStart (collection start : string) (limit : Z)
    : Go T (option KVResults * option error) :=
  let queryVariables : gmap string (list string) :=
    <[ "startKey" := [start] ]> {[ "limit" := [Itoa limit] ]} in
  doList (collection +:+ "?" +:+ ValuesEncode queryVariables).

(** Get the page of key/value list results that follow that provided set.
    [results.Next[4:]] panics when [Next] has fewer than four bytes. *)
Definition ListGetNext (results : KVResults)
    : Go T (option KVResults * option error) :=
  match sliceFrom 4 (Next results) with
  | Some trailingUri => doList trailingUri
  | None => panic "slice bounds out of range"
  end.

(** *** Event calls *)

(** Execute event get. *)
Definition doGetEvents (trailingUri : string)
    : Go T (option EventResults * option error) :=
  reply ← doRequest "GET" trailingUri ∅ None;
  match reply with
  | Failed err => mret (None, Some (TransportError err))
  | Responded resp =>
      if decide (StatusCode resp ≠ 200%Z) then mret (None, Some (newError resp))
      else
        let '(results, err) := Decode (Resp_Body resp) zeroEventResults in
        match err with
        | Some err => mret (None, Some err)
        | None => mret (Some results, None)
        end
  end.

(** Get latest events of a particular type from specified collection-key
    pair. *)
Definition GetEvents (collection key kind : string)
    : Go T (option EventResults * option error) :=
  doGetEvents (collection +:+ "/" +:+ key +:+ "/events/" +:+ kind).

(** Get all events of a particular type from specified collection-key pair
    in a range. *)
Definition GetEventsInRange (collection key kind : string) (start end_ : Z)
    : Go T (option EventResults * option error) :=
  let queryVariables : gmap string (list string) :=
    <[ "end" := [FormatInt end_ 10%Z] ]> {[ "start" := [FormatInt start 10%Z] ]} in
  doGetEvents (collection +:+ "/" +:+ key +:+ "/events/" +:+ kind +:+ "?"
               +:+ ValuesEncode queryVariables).

(** Execute event put. *)
Definition doPutEvent (trailingUri : string) (value : string) : Go T (option error) :=
  reply ← doRequest "PUT" trailingUri ∅ (Some value);
  match reply with
  | Failed err => mret (Some (TransportError err))
  | Responded resp =>
      if decide (StatusCode resp ≠ 204%Z) then mret (Some (newError resp))
      else mret None
  end.

(** Put an event of the specified type to provided collection-key pair. *)
Definition PutEventRaw (collection key kind : string) (value : string)
    : Go T (option error) :=
  doPutEvent (collection +:+ "/" +:+ key +:+ "/events/" +:+ kind) value.

Definition PutEvent (collection key kind : string) (value : V) : Go T (option error) :=
  let '(buf, err) := Encode value in
  match err with
  | Some err => mret (Some (JSONError err))
  | None => PutEventRaw collection key kind buf
  end.

(** Put an event of the specified type to provided collection-key pair and
    time. *)
Definition PutEventWithTimeRaw (collection key kind : string) (time : Z)
    (value : string) : Go T (option error) :=
  let queryVariables : gmap string (list string) :=
    {[ "timestamp" := [FormatInt time 10%Z] ]} in
  doPutEvent (collection +:+ "/" +:+ key +:+ "/events/" +:+ kind +:+ "?"
              +:+ ValuesEncode queryVariables) value.

Definition PutEventWithTime (collection key kind : string) (time : Z) (value : V)
    : Go T (option error) :=
  let '(buf, err) := Encode value in
  match err with
  | Some err => mret (Some (JSONError err))
  | None => PutEventWithTimeRaw collection key kind time buf
  end.

(** *** Graph calls *)

(** Get all related key/value objects by collection-key and a list of
    relations. *)
Definition GetRelations (collection key : string) (hops : list string)
    : Go T (option GraphResults * option error) :=
  let relationsPath := Join hops "/" in
  let trailingUri := collection +:+ "/" +:+ key +:+ "/relations/" +:+ relationsPath in
  reply ← doRequest "GET" trailingUri ∅ None;
  match reply with
  | Failed err => mret (None, Some (TransportError err))
  | Responded resp =>
      if decide (StatusCode resp ≠ 200%Z) then mret (None, Some (newError resp))
      else
        let '(result, err) := Decode (Resp_Body resp) zeroGraphResults in
        match err with
        | Some err => mret (None, Some err)
        | None => mret (Some result, None)
        end
  end.

(** Create a relationship of a specified type between two collection-keys. *)
Definition PutRelation (sourceCollection sourceKey kind sinkCollection sinkKey : string)
    : Go T (option error) :=
  let trailingUri := sourceCollection +:+ "/" +:+ sourceKey +:+ "/relation/" +:+ kind
                     +:+ "/" +:+ sinkCollection +:+ "/" +:+ sinkKey in
  reply ← doRequest "PUT" trailingUri ∅ None;
  match reply with
  | Failed err => mret (Some (TransportError err))
  | Responded resp =>
      if decide (StatusCode resp ≠ 204%Z) then mret (Some (newError resp))
      else mret None
  end.

(** *** Decoding a payload on demand

    [json.Unmarshal(raw, value)] with [value] a pointer to the caller's
    target: the object behind the pointer is decoded into in place.  A nil
    pointer is refused by [encoding/json] with an error, nothing is
    written. *)
Definition unmarshalAt (raw : RawMessage) (value : loc) : Go T (option error) :=
  λ w, match heap w !! value with
       | None => (w, Returns (Some (JSONError "json: Unmarshal(nil)")))
       | Some target =>
           let '(target', err) := Unmarshal raw target in
           (mkWorld (sent w) (<[value := target']> (heap w)),
            Returns (JSONError <$> err))
       end.

(** Marshall the value of a KVResult into the provided object. *)
Definition KVResult_Value (result value : loc) : Go T (option error) :=
  c ← load result;
  match c with
  | KVResultCell r => unmarshalAt (KVResult_RawValue r) value
  | _ => panic "invalid memory address or nil pointer dereference"
  end.

(** Marshall the value of an event into the provided object. *)
Definition Event_Value (r value : loc) : Go T (option error) :=
  c ← load r;
  match c with
  | EventCell e => unmarshalAt (Event_RawValue e) value
  | _ => panic "invalid memory address or nil pointer dereference"
  end.

(** Marshall the value of a GraphResult into the provided object. *)
Definition GraphResult_Value (result value : loc) : Go T (option error) :=
  c ← load result;
  match c with
  | GraphResultCell r => unmarshalAt (GraphResult_RawValue r) value
  | _ => panic "invalid memory address or nil pointer dereference"
  end.

(** *** The calls by kind

    One constructor per function that runs a request and maps the response;
    every exported call of the package ends in one of them.  [perform]
    keeps the error result of a call, [successStatus] is the status the
    call's source compares the response with. *)
Inductive Operation :=
  | OpGetPath (path : loc)
  | OpGet (collection key : string)
  | OpPut (path : Path) (headers : gmap string string) (value : string)
  | OpDelete (trailingUri : string) (headers : gmap string string)
  | OpList (trailingUri : string)
  | OpGetEvents (trailingUri : string)
  | OpPutEvent (trailingUri : string) (value : string)
  | OpGetRelations (collection key : string) (hops : list string)
  | OpPutRelation (sourceCollection sourceKey kind sinkCollection sinkKey : string).

Definition perform (op : Operation) : Go T (option error) :=
  match op with
  | OpGetPath path => r ← GetPath path; mret r.2
  | OpGet collection key => r ← Get collection key; mret r.2
  | OpPut path headers value => r ← doPut path headers value; mret r.2
  | OpDelete trailingUri headers => doDelete trailingUri headers
  | OpList trailingUri => r ← doList trailingUri; mret r.2
  | OpGetEvents trailingUri => r ← doGetEvents trailingUri; mret r.2
  | OpPutEvent trailingUri value => doPutEvent trailingUri value
  | OpGetRelations collection key hops => r ← GetRelations collection key hops; mret r.2
  | OpPutRelation sc sk kind c k => PutRelation sc sk kind c k
  end.

Definition successStatus (op : Operation) : Z :=
  match op with
  | OpGetPath _ | OpGet _ _ | OpList _ | OpGetEvents _ | OpGetRelations _ _ _ => 200
  | OpPut _ _ _ => 201
  | OpDelete _ _ | OpPutEvent _ _ | OpPutRelation _ _ _ _ _ => 204
  end.

(** A [GetPath] needs an address behind its pointer. *)
Definition runnable (op : Operation) (w : World T) : Prop :=
  match op with
  | OpGetPath path => ∃ p, heap w !! path = Some (PathCell p)
  | _ => True
  end.

(** The three envelopes: the payload bytes an envelope holds and its
    [Value] method. *)
Definition envelopeValue (c : Cell T)
    : option (RawMessage * (loc → loc → Go T (option error))) :=
  match c with
  | KVResultCell r => Some (KVResult_RawValue r, KVResult_Value)
  | GraphResultCell r => Some (GraphResult_RawValue r, GraphResult_Value)
  | EventCell e => Some (Event_RawValue e, Event_Value)
  | _ => None
  end.

End Client.

(** ** The extractor of the specification

    The specification describes ref extraction by a marker: split the header
    on the separator and take the segment that follows the literal [refs]
    segment; there is no ref when the marker is missing or comes last.
    These definitions follow that description; the client itself indexes
    (see [doPut] and [GetPath]). *)
Fixpoint segmentAfter (marker : string) (segments : list string) : option string :=
  match segments with
  | [] => None
  | segment :: rest =>
      if decide (segment = marker) then head rest
      else segmentAfter marker rest
  end.

Definition refAfterMarker (header : string) : option string :=
  segmentAfter "refs" (Split header slash).

(** ** A canned service, for worked examples *)

(** A transport that answers every call with the same response. *)
Definition answering (resp : Response) : list Call → Call → Reply :=
  λ _ _, Responded resp.

(** A decoder that rejects its input and writes nothing, as [encoding/json]
    does for bytes that are not JSON. *)
Definition rejecting {A : Type} : Decoder A :=
  λ _ target, (target, Some (JSONError "invalid character")).

(** An error body whose [message] fits and whose [locator] does not: the
    object with, in this order, the member [message] with the JSON string
    [boom] and the member [locator] with the JSON number 5. *)
Definition mismatchBody : string :=
  "{" +:+ dquote +:+ "message" +:+ dquote +:+ ":" +:+ dquote +:+ "boom" +:+ dquote
  +:+ "," +:+ dquote +:+ "locator" +:+ dquote +:+ ":5}".

(** [encoding/json] on [mismatchBody], as its documentation has it: a value
    that does not fit its field is skipped, decoding completes as best it
    can and the error for the first misfit is returned.  Any other body is
    rejected here with nothing written. *)
Definition fieldwise : Decoder OrchestrateError :=
  λ body target,
    if decide (delivered body = mismatchBody)
    then (mkOrchestrateError (Status target) "boom" (Locator target),
          Some (JSONError "json: cannot unmarshal number into Go struct field"))
    else (target, Some (JSONError "invalid character")).

(** [encoding/json] on a payload that breaks off, such as a lone opening
    brace: the bytes are refused before anything is stored, so the target
    is left as it was. *)
Definition halting : Unmarshaler (Cell string) :=
  λ raw target, (target, Some "unexpected end of JSON input").

Definition created (location : string) : Response :=
  mkResponse "201 Created" 201 {[ "Location" := location ]} (mkBody "" None).

Definition found (contentLocation body : string) : Response :=
  mkResponse "200 OK" 200 {[ "Content-Location" := contentLocation ]} (mkBody body None).

Definition notFound (body : string) : Response :=
  mkResponse "404 Not Found" 404 ∅ (mkBody body None).

Definition emptyWorld {T : Type} : World T := mkWorld [] ∅.

(** A caller that holds a key/value result at address 1 and a target of
    type [string] at address 2; the payload of the result breaks off after
    its first byte. *)
Definition heldResult : Cell string :=
  KVResultCell (mkKVResult (mkPath "col" "key" "abc123") "{").

Definition decodingWorld : World string :=
  mkWorld [] {[ 1%positive := heldResult; 2%positive := TargetCell "" ]}.

(** A caller that holds an address without ref at address 1. *)
Definition readingWorld : World unit :=
  mkWorld [] {[ 1%positive := PathCell (mkPath "col" "key" "") ]}.

(** ** The text of an error *)

(** [Error()] of an [*OrchestrateError]: the two fields are strings, so the
    format [%v: %v] puts them around a colon and a space. *)
Definition Error (e : OrchestrateError) : string :=
  Status e +:+ ": " +:+ Message e.

(** The number of times a byte occurs in a string. *)
Fixpoint countByte (c : ascii) (s : string) : nat :=
  match s with
  | EmptyString => 0
  | String c' s' => (if decide (c' = c) then 1 else 0) + countByte c s'
  end.

(** ** More of the canned service *)

(** A transport that fails every call. *)
Definition unreachable (msg : string) : list Call → Call → Reply :=
  λ _ _, Failed msg.

(** A decoder that stores a page holding one count and then fails. *)
Definition truncating : Decoder KVResults :=
  λ _ target,
    (mkKVResults 7 (KVResults_Results target) (Next target),
     Some (JSONError "unexpected EOF")).

(** An encoder of [bool] values that refuses [false]. *)
Definition selective : Encoder bool :=
  λ value, if value then ("true", None) else ("", Some "json: unsupported value").

(** An event whose payload is the object with the member [ordinal], the
    JSON number 7, and the member [timestamp], the JSON string [x]. *)
Definition selfPayload : string :=
  "{" +:+ dquote +:+ "ordinal" +:+ dquote +:+ ":7," +:+ dquote +:+ "timestamp"
  +:+ dquote +:+ ":" +:+ dquote +:+ "x" +:+ dquote +:+ "}".

(** [encoding/json] on [selfPayload] with an [*Event] for target, as its
    documentation has it: the ordinal fits and is stored, the timestamp is
    a string where a number is due and is skipped, the payload member is
    absent and stays, and the error for the misfit is returned.  Anything
    else is refused here with nothing written. *)
Definition memberwise : Unmarshaler (Cell unit) :=
  λ raw target,
    match target with
    | EventCell e =>
        if decide (raw = selfPayload)
        then (EventCell (mkEvent 7 (Timestamp e) (Event_RawValue e)),
              Some "json: cannot unmarshal string into Go struct field Event.timestamp")
        else (target, Some "invalid character")
    | other => (other, Some "invalid character")
    end.

(** A caller that holds that event, with ordinal 1, at address 1. *)
Definition selfDecodingWorld : World unit :=
  mkWorld [] {[ 1%positive := EventCell (mkEvent 1 1000 selfPayload) ]}.

(** A caller that holds two addresses without ref, at the addresses 1
    and 2. *)
Definition twoAddressWorld : World unit :=
  mkWorld [] {[ 1%positive := PathCell (mkPath "col" "key" "");
                2%positive := PathCell (mkPath "col" "other" "") ]}.

(** ** The exported calls, one by one *)

Section Exported.
Context {T V : Type}.
Variable transport : list Call → Call → Reply.
Variable FormatInt : Z → Z → string.
Variable ValuesEncode : gmap string (list string) → string.
Context {errorDecoder : Decoder OrchestrateError} {listDecoder : Decoder KVResults}
        {eventsDecoder : Decoder EventResults} {graphDecoder : Decoder GraphResults}
        {unmarshaler : Unmarshaler (Cell T)} {encoder : Encoder V}.

(** Every exported function and method of the package that does any work,
    with its arguments (a [*Path] or [*KVResults] that is only read is the
    object pointed to, as before). *)
Inductive Exported :=
  | CallGet (collection key : string)
  | CallGetPath (path : loc)
  | CallPut (collection key : string) (value : V)
  | CallPutRaw (collection key value : string)
  | CallPutIfUnmodified (path : Path) (value : V)
  | CallPutIfUnmodifiedRaw (path : Path) (value : string)
  | CallPutIfAbsent (collection key : string) (value : V)
  | CallPutIfAbsentRaw (collection key value : string)
  | CallDelete (collection key : string)
  | CallDeleteIfUnmodified (path : Path)
  | CallPurge (collection key : string)
  | CallDeleteCollection (collection : string)
  | CallList (collection : string) (limit : Z)
  | CallListAfter (collection after : string) (limit : Z)
  | CallListStart (collection start : string) (limit : Z)
  | CallListGetNext (results : KVResults)
  | CallGetEvents (collection key kind : string)
  | CallGetEventsInRange (collection key kind : string) (start end_ : Z)
  | CallPutEvent (collection key kind : string) (value : V)
  | CallPutEventRaw (collection key kind value : string)
  | CallPutEventWithTime (collection key kind : string) (time : Z) (value : V)
  | CallPutEventWithTimeRaw (collection key kind : string) (time : Z) (value : string)
  | CallGetRelations (collection key : string) (hops : list string)
  | CallPutRelation (sourceCollection sourceKey kind sinkCollection sinkKey : string)
  | CallKVResultValue (result value : loc)
  | CallEventValue (r value : loc)
  | CallGraphResultValue (result value : loc).

(** Running an exported call, its results dropped. *)
Definition run (call : Exported) : Go T unit :=
  match call with
  | CallGet collection key => _ ← Get transport collection key; mret ()
  | CallGetPath path => _ ← GetPath transport path; mret ()
  | CallPut collection key value => _ ← Put transport collection key value; mret ()
  | CallPutRaw collection key value => _ ← PutRaw transport collection key value; mret ()
  | CallPutIfUnmodified path value => _ ← PutIfUnmodified transport path value; mret ()
  | CallPutIfUnmodifiedRaw path value =>
      _ ← PutIfUnmodifiedRaw transport path value; mret ()
  | CallPutIfAbsent collection key value =>
      _ ← PutIfAbsent transport collection key value; mret ()
  | CallPutIfAbsentRaw collection key value =>
      _ ← PutIfAbsentRaw transport collection key value; mret ()
  | CallDelete collection key => _ ← Delete transport collection key; mret ()
  | CallDeleteIfUnmodified path => _ ← DeleteIfUnmodified transport path; mret ()
  | CallPurge collection key => _ ← Purge transport collection key; mret ()
  | CallDeleteCollection collection => _ ← DeleteCollection transport collection; mret ()
  | CallList collection limit =>
      _ ← List transport FormatInt ValuesEncode collection limit; mret ()
  | CallListAfter collection after limit =>
      _ ← ListAfter transport FormatInt ValuesEncode collection after limit; mret ()
  | CallListStart collection start limit =>
      _ ← ListStart transport FormatInt ValuesEncode collection start limit; mret ()
  | CallListGetNext results => _ ← ListGetNext transport results; mret ()
  | CallGetEvents collection key kind =>
      _ ← GetEvents transport collection key kind; mret ()
  | CallGetEventsInRange collection key kind start end_ =>
      _ ← GetEventsInRange transport FormatInt ValuesEncode collection key kind
            start end_;
      mret ()
  | CallPutEvent collection key kind value =>
      _ ← PutEvent transport collection key kind value; mret ()
  | CallPutEventRaw collection key kind value =>
      _ ← PutEventRaw transport collection key kind value; mret ()
  | CallPutEventWithTime collection key kind time value =>
      _ ← PutEventWithTime transport FormatInt ValuesEncode collection key kind
            time value;
      mret ()
  | CallPutEventWithTimeRaw collection key kind time value =>
      _ ← PutEventWithTimeRaw transport FormatInt ValuesEncode collection key kind
            time value;
      mret ()
  | CallGetRelations collection key hops =>
      _ ← GetRelations transport collection key hops; mret ()
  | CallPutRelation sc sk kind c k => _ ← PutRelation transport sc sk kind c k; mret ()
  | CallKVResultValue result value => _ ← KVResult_Value result value; mret ()
  | CallEventValue r value => _ ← Event_Value r value; mret ()
  | CallGraphResultValue result value => _ ← GraphResult_Value result value; mret ()
  end.

(** The calls that end before [doRequest] is reached, or never reach for
    it: a [Value], which only decodes; a write whose value cannot be
    encoded; a next page asked for with a token of fewer than four bytes;
    a [GetPath] through a pointer that holds no address. *)
Definition silent (call : Exported) (w : World T) : Prop :=
  match call with
  | CallKVResultValue _ _ | CallEventValue _ _ | CallGraphResultValue _ _ => True
  | CallPut _ _ value | CallPutIfUnmodified _ value | CallPutIfAbsent _ _ value
  | CallPutEvent _ _ _ value | CallPutEventWithTime _ _ _ _ value =>
      (Encode value).2 ≠ None
  | CallListGetNext results => String.length (Next results) < 4
  | CallGetPath path => ∀ p, heap w !! path ≠ Some (PathCell p)
  | _ => False
  end.

End Exported.

(** ** Proof tools: running a call *)

Create HintDb go_run.
#[global] Hint Unfold mbind mret Go_bind Go_ret doRequest index panic store load
  loadPath alloc after : go_run.

Ltac go_unfold := repeat (progress autounfold with go_run in *).

(** ** Worked examples and first facts *)

Example SplitAfter_service_header :
  SplitAfter "/v0/col/key/refs/abc123" slash
  = ["/"; "v0/"; "col/"; "key/"; "refs/"; "abc123"].
Proof. reflexivity. Qed.

Example SplitAfter_empty : SplitAfter "" slash = [""].
Proof. reflexivity. Qed.

Example SplitAfter_trailing : SplitAfter "a/" slash = ["a/"; ""].
Proof. reflexivity. Qed.

Example Join_two : Join ["friends"; "colleagues"] "/" = "friends/colleagues".
Proof. reflexivity. Qed.

Example sliceFrom_short : sliceFrom 4 "abc" = None.
Proof. reflexivity. Qed.

Example sliceFrom_exact : sliceFrom 4 "/v0/" = Some "".
Proof. reflexivity. Qed.

(** ** Splitting and joining *)

Lemma append_nil (b : string) : "" +:+ b = b.
Proof. reflexivity. Qed.

Lemma append_cons (x : ascii) (a b : string) : String x a +:+ b = String x (a +:+ b).
Proof. reflexivity. Qed.

Lemma append_empty (a : string) : a +:+ "" = a.
Proof.
  induction a as [|x a IH]; [done|].
  rewrite append_cons. by f_equal.
Qed.

Lemma append_assoc (a b c : string) : (a +:+ b) +:+ c = a +:+ b +:+ c.
Proof.
  induction a as [|x a IH]; [done|].
  rewrite !append_cons. by f_equal.
Qed.

Lemma SplitAfter_cons (sep : ascii) (a b : string) :
  occurs sep a = false →
  SplitAfter (a +:+ String sep b) sep = (a +:+ String sep "") :: SplitAfter b sep.
Proof.
  unfold SplitAfter. induction a as [|x a IH]; rewrite ?append_cons, ?append_nil;
    simpl; intros Hfree.
  - destruct (splitAfterFrom sep b) as [piece pieces].
    by rewrite decide_True.
  - apply orb_false_iff in Hfree as [Hx Hfree].
    apply bool_decide_eq_false in Hx.
    specialize (IH Hfree).
    destruct (splitAfterFrom sep (a +:+ String sep b)) as [piece pieces].
    destruct (splitAfterFrom sep b) as [piece' pieces'].
    rewrite decide_False by done. by simplify_eq.
Qed.

Lemma SplitAfter_last (sep : ascii) (a : string) :
  occurs sep a = false → SplitAfter a sep = [a].
Proof.
  unfold SplitAfter. induction a as [|x a IH]; simpl; intros Hfree; [done|].
  apply orb_false_iff in Hfree as [Hx Hfree].
  apply bool_decide_eq_false in Hx.
  specialize (IH Hfree).
  destruct (splitAfterFrom sep a) as [piece pieces].
  rewrite decide_False by done. by simplify_eq.
Qed.

Lemma Split_cons (sep : ascii) (a b : string) :
  occurs sep a = false →
  Split (a +:+ String sep b) sep = a :: Split b sep.
Proof.
  unfold Split. induction a as [|x a IH]; rewrite ?append_cons, ?append_nil;
    simpl; intros Hfree.
  - destruct (splitFrom sep b) as [piece pieces].
    by rewrite decide_True.
  - apply orb_false_iff in Hfree as [Hx Hfree].
    apply bool_decide_eq_false in Hx.
    specialize (IH Hfree).
    destruct (splitFrom sep (a +:+ String sep b)) as [piece pieces].
    destruct (splitFrom sep b) as [piece' pieces'].
    rewrite decide_False by done. by simplify_eq.
Qed.

Lemma Split_last (sep : ascii) (a : string) :
  occurs sep a = false → Split a sep = [a].
Proof.
  unfold Split. induction a as [|x a IH]; simpl; intros Hfree; [done|].
  apply orb_false_iff in Hfree as [Hx Hfree].
  apply bool_decide_eq_false in Hx.
  specialize (IH Hfree).
  destruct (splitFrom sep a) as [piece pieces].
  rewrite decide_False by done. by simplify_eq.
Qed.

(** Joining on the separator and splitting on it again gives the elements
    back, in order, when no element holds the separator. *)
Lemma Split_Join (elems : list string) :
  elems ≠ [] →
  Forall (λ e, occurs slash e = false) elems →
  Split (Join elems "/") slash = elems.
Proof.
  intros Hne Hfree. induction Hfree as [|e rest He Hrest IH]; [done|].
  destruct rest as [|e' rest'].
  - simpl. by apply Split_last.
  - change (Join (e :: e' :: rest') "/") with (e +:+ String slash (Join (e' :: rest') "/")).
    rewrite Split_cons by done. f_equal. by apply IH.
Qed.

(** A header of the form the service sends, [/v0/collection/key/refs/ref]:
    the sixth piece is the ref. *)
Lemma SplitAfter_service_shape (collection key ref : string) :
  occurs slash collection = false →
  occurs slash key = false →
  occurs slash ref = false →
  SplitAfter ("/v0/" +:+ collection +:+ "/" +:+ key +:+ "/refs/" +:+ ref) slash
  = ["/"; "v0/"; collection +:+ "/"; key +:+ "/"; "refs/"; ref].
Proof.
  intros Hc Hk Hr.
  change ("/v0/" +:+ collection +:+ "/" +:+ key +:+ "/refs/" +:+ ref)
    with ("" +:+ String slash ("v0" +:+ String slash
            (collection +:+ String slash (key +:+ String slash
               ("refs" +:+ String slash ref))))).
  rewrite !SplitAfter_cons by done.
  by rewrite SplitAfter_last.
Qed.

(** ** Running the calls *)

Section ClientFacts.
Context {T V : Type}.
Variable transport : list Call → Call → Reply.
Variable FormatInt : Z → Z → string.
Variable ValuesEncode : gmap string (list string) → string.
Context {errorDecoder : Decoder OrchestrateError} {listDecoder : Decoder KVResults}
        {eventsDecoder : Decoder EventResults} {graphDecoder : Decoder GraphResults}
        {unmarshaler : Unmarshaler (Cell T)} {encoder : Encoder V}.

(** [doPut], step by step. *)
Lemma doPut_run (path : Path) (headers : gmap string string) (value : string)
    (w : World T) :
  doPut transport path headers value w
  = let call := mkCall "PUT" (trailingPutURI path) headers (Some value) in
    match transport (sent w) call with
    | Failed err => (after w call, Returns (None, Some (TransportError err)))
    | Responded resp =>
        if decide (StatusCode resp ≠ 201%Z)
        then (after w call, Returns (None, Some (newError resp)))
        else match SplitAfter (HeaderGet resp "Location") slash !! 5 with
             | Some ref => (after w call,
                            Returns (Some (mkPath (Collection path) (Key path) ref), None))
             | None => (after w call, Panics "index out of range")
             end
    end.
Proof.
  unfold doPut. go_unfold. simpl.
  destruct (transport _ _) as [resp|err]; [|done].
  destruct (decide (StatusCode resp ≠ 201%Z)); [done|].
  by destruct (_ !! 5).
Qed.

(** [GetPath], step by step, for a pointer to an address. *)
Lemma GetPath_run (path : loc) (p : Path) (w : World T) :
  heap w !! path = Some (PathCell p) →
  GetPath transport path w
  = let call := mkCall "GET" (trailingGetURI p) ∅ None in
    match transport (sent w) call with
    | Failed err => (after w call, Returns (None, Some (TransportError err)))
    | Responded resp =>
        if decide (StatusCode resp ≠ 200%Z)
        then (after w call, Returns (None, Some (newError resp)))
        else match broken (Resp_Body resp) with
             | Some err => (after w call, Returns (None, Some (ReadError err)))
             | None =>
                 if decide (Ref p = "") then
                   match SplitAfter (HeaderGet resp "Content-Location") slash !! 5 with
                   | Some ref =>
                       let p' := mkPath (Collection p) (Key p) ref in
                       (mkWorld (sent w ++ [call]) (<[path := PathCell p']> (heap w)),
                        Returns (Some (mkKVResult p' (delivered (Resp_Body resp))), None))
                   | None => (after w call, Panics "index out of range")
                   end
                 else (after w call,
                       Returns (Some (mkKVResult p (delivered (Resp_Body resp))), None))
             end
    end.
Proof.
  intros Hp. unfold GetPath, ReadFrom. go_unfold. rewrite Hp. simpl.
  destruct (transport _ _) as [resp|err]; [|done].
  destruct (decide (StatusCode resp ≠ 200%Z)); [done|].
  destruct (broken (Resp_Body resp)); simpl; [done|].
  destruct (decide (Ref p = "")); simpl.
  - destruct (_ !! 5); simpl; [|done]. by rewrite lookup_insert_eq.
  - by rewrite Hp.
Qed.

(** The other calls send one request and map the response. *)
Lemma doDelete_run (trailingUri : string) (headers : gmap string string) (w : World T) :
  doDelete transport trailingUri headers w
  = let call := mkCall "DELETE" trailingUri headers None in
    (after w call,
     Returns match transport (sent w) call with
             | Failed err => Some (TransportError err)
             | Responded resp =>
                 if decide (StatusCode resp ≠ 204%Z) then Some (newError resp) else None
             end).
Proof.
  unfold doDelete. go_unfold. simpl.
  destruct (transport _ _) as [resp|err]; [|done].
  by destruct (decide (StatusCode resp ≠ 204%Z)).
Qed.

Lemma doList_run (trailingUri : string) (w : World T) :
  doList transport trailingUri w
  = let call := mkCall "GET" trailingUri ∅ None in
    (after w call,
     Returns match transport (sent w) call with
             | Failed err => (None, Some (TransportError err))
             | Responded resp =>
                 if decide (StatusCode resp ≠ 200%Z) then (None, Some (newError resp))
                 else let '(result, err) := Decode (Resp_Body resp) zeroKVResults in
                      (Some result, err)
             end).
Proof.
  unfold doList. go_unfold. simpl.
  destruct (transport _ _) as [resp|err]; [|done].
  destruct (decide (StatusCode resp ≠ 200%Z)); [done|].
  by destruct (Decode _ _) as [result [err|]].
Qed.

Lemma doPut_sent (path : Path) (headers : gmap string string) (value : string)
    (w : World T) :
  sent (doPut transport path headers value w).1
  = sent w ++ [mkCall "PUT" (trailingPutURI path) headers (Some value)].
Proof. rewrite doPut_run. simpl. by repeat case_match. Qed.

Lemma doPut_heap (path : Path) (headers : gmap string string) (value : string)
    (w : World T) :
  heap (doPut transport path headers value w).1 = heap w.
Proof. rewrite doPut_run. simpl. by repeat case_match. Qed.

Lemma GetPath_sent (path : loc) (p : Path) (w : World T) :
  heap w !! path = Some (PathCell p) →
  sent (GetPath transport path w).1
  = sent w ++ [mkCall "GET" (trailingGetURI p) ∅ None].
Proof. intros Hp. rewrite (GetPath_run _ _ _ Hp). simpl. by repeat case_match. Qed.

(** [Get] makes its own address and reads through it. *)
Lemma Get_run (collection key : string) (w : World T) :
  let path := fresh (dom (heap w)) in
  let p := mkPath collection key "" in
  Get transport collection key w
  = GetPath transport path (mkWorld (sent w) (<[path := PathCell p]> (heap w)))
  ∧ heap (mkWorld (sent w) (<[path := PathCell p]> (heap w))) !! path = Some (PathCell p).
Proof.
  simpl. split; [|by rewrite lookup_insert_eq].
  unfold Get. go_unfold. done.
Qed.

Lemma Get_sent (collection key : string) (w : World T) :
  sent (Get transport collection key w).1
  = sent w ++ [mkCall "GET" (collection +:+ "/" +:+ key) ∅ None].
Proof.
  destruct (Get_run collection key w) as [-> Hp].
  by rewrite (GetPath_sent _ _ _ Hp).
Qed.

(** The writes that encode their value first: with the value encoded
    they are the raw writes, and when encoding fails nothing is sent. *)
Lemma encoded_writes (path : Path) (collection key : string) (value : V)
    (buf : string) (w : World T) :
  Encode value = (buf, None) →
  Put transport collection key value w = PutRaw transport collection key buf w
  ∧ PutIfAbsent transport collection key value w
    = PutIfAbsentRaw transport collection key buf w
  ∧ PutIfUnmodified transport path value w = PutIfUnmodifiedRaw transport path buf w.
Proof.
  intros Henc. unfold Put, PutIfAbsent, PutIfUnmodified. by rewrite Henc.
Qed.

Lemma unencoded_writes (path : Path) (collection key : string) (value : V)
    (buf err : string) (w : World T) :
  Encode value = (buf, Some err) →
  Put transport collection key value w = (w, Returns (None, Some (JSONError err)))
  ∧ PutIfAbsent transport collection key value w
    = (w, Returns (None, Some (JSONError err)))
  ∧ PutIfUnmodified transport path value w
    = (w, Returns (None, Some (JSONError err))).
Proof.
  intros Henc. unfold Put, PutIfAbsent, PutIfUnmodified. by rewrite Henc.
Qed.

(** The first page of a listing goes to the collection, with the encoded
    query behind a question mark. *)
Lemma List_sent (collection : string) (limit : Z) (w : World T) :
  sent (List transport FormatInt ValuesEncode collection limit w).1
  = sent w ++ [mkCall "GET"
                 (collection +:+ "?"
                  +:+ ValuesEncode {[ "limit" := [FormatInt limit 10%Z] ]}) ∅ None].
Proof. unfold List, Itoa. by rewrite doList_run. Qed.

(** The later pages of a listing name the key to continue after, or to
    start at, next to the limit. *)
Lemma ListAfter_ListStart_sent (collection key : string) (limit : Z) (w : World T) :
  sent (ListAfter transport FormatInt ValuesEncode collection key limit w).1
  = sent w ++ [mkCall "GET"
                 (collection +:+ "?"
                  +:+ ValuesEncode (<[ "afterKey" := [key] ]>
                                      {[ "limit" := [FormatInt limit 10%Z] ]})) ∅ None]
  ∧ sent (ListStart transport FormatInt ValuesEncode collection key limit w).1
    = sent w ++ [mkCall "GET"
                   (collection +:+ "?"
                    +:+ ValuesEncode (<[ "startKey" := [key] ]>
                                        {[ "limit" := [FormatInt limit 10%Z] ]})) ∅ None].
Proof. unfold ListAfter, ListStart, Itoa. by rewrite !doList_run. Qed.

(** Purging a key and deleting a collection are deletes without header. *)
Lemma Purge_DeleteCollection_sent (collection key : string) (w : World T) :
  sent (Purge transport collection key w).1
  = sent w ++ [mkCall "DELETE" (collection +:+ "/" +:+ key +:+ "?purge=true") ∅ None]
  ∧ sent (DeleteCollection transport collection w).1
    = sent w ++ [mkCall "DELETE" (collection +:+ "?force=true") ∅ None].
Proof. unfold Purge, DeleteCollection. by rewrite !doDelete_run. Qed.

(** Event buckets: collection/key/events/kind, for reads and writes. *)
Lemma event_paths (collection key kind value : string) (w : World T) :
  sent (GetEvents transport collection key kind w).1
  = sent w ++ [mkCall "GET" (collection +:+ "/" +:+ key +:+ "/events/" +:+ kind) ∅ None]
  ∧ sent (PutEventRaw transport collection key kind value w).1
    = sent w ++ [mkCall "PUT" (collection +:+ "/" +:+ key +:+ "/events/" +:+ kind) ∅
                   (Some value)].
Proof.
  unfold GetEvents, PutEventRaw, doGetEvents, doPutEvent. go_unfold. simpl.
  split; by repeat case_match.
Qed.

(** ** Path resolution *)

(** C2. For a collection and key that are not empty, the read path of an
    address without ref is collection/key, the read path of an address
    with a ref is collection/key/refs/ref, and the write path is
    collection/key whatever the ref. *)
Theorem resolve_read_write (collection key ref : string) :
  collection ≠ "" → key ≠ "" →
  trailingGetURI (mkPath collection key "") = collection +:+ "/" +:+ key
  ∧ (ref ≠ "" →
     trailingGetURI (mkPath collection key ref)
     = collection +:+ "/" +:+ key +:+ "/refs/" +:+ ref)
  ∧ trailingPutURI (mkPath collection key ref) = collection +:+ "/" +:+ key.
Proof.
  intros _ _. unfold trailingGetURI, trailingPutURI. simpl.
  repeat split. intros Href. by rewrite decide_True.
Qed.

Lemma resolve_read_write_witness :
  "users" ≠ "" ∧ "ada" ≠ ""
  ∧ trailingGetURI (mkPath "users" "ada" "") = "users/ada"
  ∧ ("9c1b" ≠ "" → trailingGetURI (mkPath "users" "ada" "9c1b") = "users/ada/refs/9c1b")
  ∧ trailingPutURI (mkPath "users" "ada" "9c1b") = "users/ada".
Proof.
  split; [done|]. split; [done|].
  apply (resolve_read_write "users" "ada" "9c1b"); done.
Defined.

(** ** Precondition headers *)

(** C4. A create-only write carries exactly the header If-None-Match with
    the three bytes quote, asterisk, quote; an update-only-if-current write
    and a delete-only-if-current delete carry exactly the header If-Match
    with the address's ref between two quotes; an unconditional write or
    delete carries no header. *)
Theorem precondition_headers (path : Path) (collection key value : string)
    (w : World T) :
  sent (PutIfAbsentRaw transport collection key value w).1
  = sent w ++ [mkCall "PUT" (collection +:+ "/" +:+ key)
                 {[ "If-None-Match" := String "034" (String "*" (String "034" "")) ]}
                 (Some value)]
  ∧ sent (PutIfUnmodifiedRaw transport path value w).1
    = sent w ++ [mkCall "PUT" (Collection path +:+ "/" +:+ Key path)
                   {[ "If-Match" := String "034" (Ref path +:+ String "034" "") ]}
                   (Some value)]
  ∧ sent (DeleteIfUnmodified transport path w).1
    = sent w ++ [mkCall "DELETE" (Collection path +:+ "/" +:+ Key path)
                   {[ "If-Match" := String "034" (Ref path +:+ String "034" "") ]}
                   None]
  ∧ sent (PutRaw transport collection key value w).1
    = sent w ++ [mkCall "PUT" (collection +:+ "/" +:+ key) ∅ (Some value)]
  ∧ sent (Delete transport collection key w).1
    = sent w ++ [mkCall "DELETE" (collection +:+ "/" +:+ key) ∅ None].
Proof.
  unfold PutIfAbsentRaw, PutIfUnmodifiedRaw, DeleteIfUnmodified, PutRaw, Delete.
  rewrite !doPut_sent, !doDelete_run. done.
Qed.

(** C5, as the client has it.  For an address whose ref is empty the
    update-only-if-current write and the conditional delete are sent like
    any other: one request, with the header If-Match holding two quotes
    and nothing between them. *)
Theorem empty_ref_precondition_sent (path : Path) (value : string) (w : World T) :
  Ref path = "" →
  sent (PutIfUnmodifiedRaw transport path value w).1
  = sent w ++ [mkCall "PUT" (Collection path +:+ "/" +:+ Key path)
                 {[ "If-Match" := String "034" (String "034" "") ]} (Some value)]
  ∧ sent (DeleteIfUnmodified transport path w).1
    = sent w ++ [mkCall "DELETE" (Collection path +:+ "/" +:+ Key path)
                   {[ "If-Match" := String "034" (String "034" "") ]} None].
Proof.
  intros Href. unfold PutIfUnmodifiedRaw, DeleteIfUnmodified.
  rewrite doPut_sent, doDelete_run, Href. done.
Qed.

(** C7, as the client has it.  An address whose collection or key is
    empty has a read path like any other, the two components around the
    separator, followed by the refs segment and the ref when there is one;
    [GetPath] sends its GET to that path. *)
Theorem empty_address_read_path (path : loc) (p : Path) (w : World T) :
  Collection p = "" ∨ Key p = "" →
  heap w !! path = Some (PathCell p) →
  trailingGetURI p
  = Collection p +:+ "/" +:+ Key p
    +:+ (if decide (Ref p = "") then "" else "/refs/" +:+ Ref p)
  ∧ sent (GetPath transport path w).1
    = sent w ++ [mkCall "GET" (trailingGetURI p) ∅ None].
Proof.
  intros _ Hp. split; [|by apply GetPath_sent].
  unfold trailingGetURI. destruct (decide (Ref p = "")) as [Href|Href].
  - rewrite decide_False by naive_solver. by rewrite append_empty.
  - by rewrite decide_True.
Qed.

(** ** Error mapping *)

(** What [newError] returns: the status line of the response, with the
    message and locator the decoder left in a zero error. *)
Lemma newError_fields (resp : Response) :
  newError resp
  = Orchestrate (mkOrchestrateError (Resp_Status resp)
      (Message (Decode (Resp_Body resp) zeroOrchestrateError).1)
      (Locator (Decode (Resp_Body resp) zeroOrchestrateError).1)).
Proof. unfold newError. by destruct (Decode _ _). Qed.

(** C6, as the client has it.  Whatever call is made, a response whose
    status is not the call's success status (200 for reads and lists, 201
    for key/value puts, 204 for deletes, relation puts and event puts)
    makes the call return an OrchestrateError with the status line of the
    response; its message and locator are what decoding the body left in
    a zero error, so both are empty when decoding wrote nothing.  Whether
    decoding the body failed plays no part: the call returns this error
    all the same. *)
Theorem error_mapping (op : Operation) (w : World T) (resp : Response) :
  runnable op w →
  (∀ call, transport (sent w) call = Responded resp) →
  StatusCode resp ≠ successStatus op →
  let decoded := (Decode (Resp_Body resp) zeroOrchestrateError).1 in
  ∃ w',
    perform transport op w
    = (w', Returns (Some (Orchestrate
             (mkOrchestrateError (Resp_Status resp) (Message decoded) (Locator decoded)))))
    ∧ (decoded = zeroOrchestrateError →
       perform transport op w
       = (w', Returns (Some (Orchestrate (mkOrchestrateError (Resp_Status resp) "" ""))))).
Proof.
  intros Hrun Hresp Hstatus decoded.
  assert (∀ w', perform transport op w
            = (w', Returns (Some (Orchestrate
                 (mkOrchestrateError (Resp_Status resp) (Message decoded) (Locator decoded)))))
          → perform transport op w
            = (w', Returns (Some (Orchestrate
                 (mkOrchestrateError (Resp_Status resp) (Message decoded) (Locator decoded)))))
            ∧ (decoded = zeroOrchestrateError →
               perform transport op w
               = (w', Returns (Some (Orchestrate
                    (mkOrchestrateError (Resp_Status resp) "" "")))))) as Hboth.
  { intros w' Hw'. split; [done|]. intros Hzero. rewrite Hw'. by rewrite Hzero. }
  destruct op as [path|collection key|path headers value|uri headers|uri|uri|uri value
                 |collection key hops|sc sk kind c k]; simpl in Hstatus, Hrun.
  - destruct Hrun as [p Hp]. eexists. apply Hboth. simpl.
    unfold mbind at 1, Go_bind. rewrite (GetPath_run _ _ _ Hp). simpl.
    rewrite Hresp, decide_True by done. by rewrite newError_fields.
  - destruct (Get_run collection key w) as [Hget Hp].
    eexists. apply Hboth. simpl.
    unfold mbind at 1, Go_bind. rewrite Hget, (GetPath_run _ _ _ Hp). simpl.
    rewrite Hresp, decide_True by done. by rewrite newError_fields.
  - eexists. apply Hboth. simpl.
    unfold mbind at 1, Go_bind. rewrite doPut_run. simpl.
    rewrite Hresp, decide_True by done. by rewrite newError_fields.
  - eexists. apply Hboth. simpl. rewrite doDelete_run. simpl.
    rewrite Hresp, decide_True by done. by rewrite newError_fields.
  - eexists. apply Hboth. simpl.
    unfold mbind at 1, Go_bind. rewrite doList_run. simpl.
    rewrite Hresp, decide_True by done. by rewrite newError_fields.
  - eexists. apply Hboth. simpl. unfold doGetEvents. go_unfold. simpl.
    rewrite Hresp, decide_True by done. by rewrite newError_fields.
  - eexists. apply Hboth. simpl. unfold doPutEvent. go_unfold. simpl.
    rewrite Hresp, decide_True by done. by rewrite newError_fields.
  - eexists. apply Hboth. simpl. unfold GetRelations. go_unfold. simpl.
    rewrite Hresp, decide_True by done. by rewrite newError_fields.
  - eexists. apply Hboth. simpl. unfold PutRelation. go_unfold. simpl.
    rewrite Hresp, decide_True by done. by rewrite newError_fields.
Qed.

(** ** Ref extraction *)

(** On a header of the service's form the marker-based extractor of the
    specification finds the same ref, as long as neither the collection nor
    the key is itself called refs. *)
Lemma refAfterMarker_service_shape (collection key ref : string) :
  occurs slash collection = false →
  occurs slash key = false →
  occurs slash ref = false →
  collection ≠ "refs" → key ≠ "refs" →
  refAfterMarker ("/v0/" +:+ collection +:+ "/" +:+ key +:+ "/refs/" +:+ ref) = Some ref.
Proof.
  intros Hc Hk Hr Hcn Hkn. unfold refAfterMarker.
  change ("/v0/" +:+ collection +:+ "/" +:+ key +:+ "/refs/" +:+ ref)
    with ("" +:+ String slash ("v0" +:+ String slash
            (collection +:+ String slash (key +:+ String slash
               ("refs" +:+ String slash ref))))).
  rewrite !Split_cons by done. rewrite Split_last by done. simpl.
  rewrite (decide_False (P := collection = "refs")) by done.
  by rewrite (decide_False (P := key = "refs")) by done.
Qed.

(** C1, as the client has it.  The ref returned by a successful write, and
    by a successful read of an address without ref, is the sixth piece
    (index 5) of the Location, respectively Content-Location, header cut
    after each separator: a fixed index, not a search for the refs marker.
    For a header of the service's form /v0/collection/key/refs/ref, its
    components free of the separator, that piece is the ref, the segment
    that follows refs. *)
Theorem ref_is_sixth_piece (header : string) :
  (∀ (ref : string) (path : Path) (headers : gmap string string) (value : string)
     (w : World T) (resp : Response),
     SplitAfter header slash !! 5 = Some ref →
     transport (sent w) (mkCall "PUT" (trailingPutURI path) headers (Some value))
     = Responded resp →
     StatusCode resp = 201%Z →
     HeaderGet resp "Location" = header →
     (doPut transport path headers value w).2
     = Returns (Some (mkPath (Collection path) (Key path) ref), None))
  ∧ (∀ (ref : string) (path : loc) (p : Path) (w : World T) (resp : Response),
     SplitAfter header slash !! 5 = Some ref →
     heap w !! path = Some (PathCell p) →
     Ref p = "" →
     transport (sent w) (mkCall "GET" (trailingGetURI p) ∅ None) = Responded resp →
     StatusCode resp = 200%Z →
     broken (Resp_Body resp) = None →
     HeaderGet resp "Content-Location" = header →
     (GetPath transport path w).2
     = Returns (Some (mkKVResult (mkPath (Collection p) (Key p) ref)
                        (delivered (Resp_Body resp))), None))
  ∧ (∀ collection key ref : string,
     occurs slash collection = false →
     occurs slash key = false →
     occurs slash ref = false →
     header = "/v0/" +:+ collection +:+ "/" +:+ key +:+ "/refs/" +:+ ref →
     SplitAfter header slash !! 5 = Some ref
     ∧ (collection ≠ "refs" → key ≠ "refs" → refAfterMarker header = Some ref)).
Proof.
  split; [|split].
  - intros ref path headers value w resp Hpiece Hresp Hstatus Hheader.
    rewrite doPut_run. simpl.
    rewrite Hresp, decide_False by (rewrite Hstatus; naive_solver).
    by rewrite Hheader, Hpiece.
  - intros ref path p w resp Hpiece Hp Href Hresp Hstatus Hbody Hheader.
    rewrite (GetPath_run _ _ _ Hp). simpl.
    rewrite Hresp, decide_False by (rewrite Hstatus; naive_solver).
    rewrite Hbody, decide_True by done.
    by rewrite Hheader, Hpiece.
  - intros collection key ref Hc Hk Hr ->. split.
    + by rewrite SplitAfter_service_shape.
    + intros. by apply refAfterMarker_service_shape.
Qed.

(** ** Pagination *)

Lemma sliceFrom_prefix (rest : string) : sliceFrom 4 ("/v0/" +:+ rest) = Some rest.
Proof. reflexivity. Qed.

(** C3, as the client has it.  When the page carries a continuation token
    of at least four bytes, requesting the next page sends one GET whose
    target is the token without its first four bytes; for a token that
    starts with the link prefix /v0/ that is the rest of the token,
    verbatim.  When the page carries no token, [HasNext] says so, and
    requesting the next page all the same sends no request. *)
Theorem next_page (results : KVResults) (w : World T) :
  (∀ trailingUri : string,
     sliceFrom 4 (Next results) = Some trailingUri →
     sent (ListGetNext transport results w).1
     = sent w ++ [mkCall "GET" trailingUri ∅ None])
  ∧ (∀ rest : string,
     Next results = "/v0/" +:+ rest →
     HasNext results = true
     ∧ sent (ListGetNext transport results w).1
       = sent w ++ [mkCall "GET" rest ∅ None])
  ∧ (Next results = "" →
     HasNext results = false
     ∧ sent (ListGetNext transport results w).1 = sent w).
Proof.
  unfold ListGetNext, HasNext. split; [|split].
  - intros trailingUri ->. by rewrite doList_run.
  - intros rest ->. rewrite sliceFrom_prefix, doList_run. done.
  - intros ->. done.
Qed.

(** ** Relation paths *)

Lemma Join_cons (hop hop' : string) (hops : list string) :
  Join (hop :: hop' :: hops) "/" = hop +:+ String slash (Join (hop' :: hops) "/").
Proof. reflexivity. Qed.

(** C8.  For hops that are not empty the relation read path is
    collection/key/relations/ followed by the hops joined, in order, by the
    separator: cut at the separators it reads collection, key, relations
    and then the hops one by one (when no component holds a separator).
    The relation write path has the singular segment: it is
    sourceCollection/sourceKey/relation/kind/sinkCollection/sinkKey. *)
Theorem relation_paths (collection key : string) (hops : list string)
    (sourceCollection sourceKey kind sinkCollection sinkKey : string) (w : World T) :
  hops ≠ [] →
  sent (GetRelations transport collection key hops w).1
  = sent w ++ [mkCall "GET"
                 (collection +:+ "/" +:+ key +:+ "/relations/" +:+ Join hops "/") ∅ None]
  ∧ (∀ hop rest, hops = hop :: rest →
     Join hops "/" = hop +:+ foldr (λ h joined, "/" +:+ h +:+ joined) "" rest)
  ∧ (Forall (λ e, occurs slash e = false) (collection :: key :: hops) →
     Split (collection +:+ "/" +:+ key +:+ "/relations/" +:+ Join hops "/") slash
     = collection :: key :: "relations" :: hops)
  ∧ sent (PutRelation transport sourceCollection sourceKey kind sinkCollection sinkKey w).1
    = sent w ++ [mkCall "PUT"
                   (sourceCollection +:+ "/" +:+ sourceKey +:+ "/relation/" +:+ kind
                    +:+ "/" +:+ sinkCollection +:+ "/" +:+ sinkKey) ∅ None].
Proof.
  intros Hne. repeat split.
  - unfold GetRelations. go_unfold. simpl. by repeat case_match.
  - intros hop rest ->. clear Hne. revert hop.
    induction rest as [|hop' rest IH]; intros hop.
    + simpl. by rewrite append_empty.
    + rewrite Join_cons, IH. done.
  - intros Hfree.
    apply Forall_cons in Hfree as [Hc Hfree].
    apply Forall_cons in Hfree as [Hk Hfree].
    change (collection +:+ "/" +:+ key +:+ "/relations/" +:+ Join hops "/")
      with (collection +:+ String slash (key +:+ String slash
              ("relations" +:+ String slash (Join hops "/")))).
    rewrite !Split_cons by done. by rewrite Split_Join.
  - unfold PutRelation. go_unfold. simpl. by repeat case_match.
Qed.

(** ** Decoding on demand *)

(** [json.Unmarshal] into a target: the target is the only object written. *)
Lemma unmarshalAt_run (raw : string) (value : loc) (target : Cell T) (w : World T) :
  heap w !! value = Some target →
  unmarshalAt raw value w
  = (mkWorld (sent w) (<[value := (Unmarshal raw target).1]> (heap w)),
     Returns (JSONError <$> (Unmarshal raw target).2)).
Proof. intros Hv. unfold unmarshalAt. rewrite Hv. by destruct (Unmarshal _ _). Qed.

(** [Value] of an envelope is [json.Unmarshal] of its payload bytes. *)
Lemma Value_run (result value : loc) (env : Cell T) (raw : string)
    (Value : loc → loc → Go T (option error)) (w : World T) :
  heap w !! result = Some env →
  envelopeValue env = Some (raw, Value) →
  Value result value w = unmarshalAt raw value w.
Proof.
  intros Hr Henv.
  destruct env; simplify_eq/=;
    [unfold KVResult_Value|unfold GraphResult_Value|unfold Event_Value];
    go_unfold; by rewrite Hr.
Qed.

(** C9, as the client has it.  For each of the three envelopes and every
    target that is an object of its own, apart from the envelope: when
    decoding the payload fails, [Value] returns the decoding error and the
    envelope is afterwards what it was before: path and ref, ordinal,
    timestamp and payload bytes.  Nothing but the target is written, and
    no request is sent.  (An envelope handed to [Value] as its own target
    is decoded into like any target.) *)
Theorem Value_failure_keeps_envelope (result value : loc) (env target : Cell T)
    (raw : string) (Value : loc → loc → Go T (option error))
    (target' : Cell T) (e : string) (w : World T) :
  heap w !! result = Some env →
  envelopeValue env = Some (raw, Value) →
  heap w !! value = Some target →
  value ≠ result →
  Unmarshal raw target = (target', Some e) →
  ∃ w',
    Value result value w = (w', Returns (Some (JSONError e)))
    ∧ heap w' !! result = Some env
    ∧ (∀ l, l ≠ value → heap w' !! l = heap w !! l)
    ∧ sent w' = sent w.
Proof.
  intros Hr Henv Hv Hne Hfail.
  rewrite (Value_run _ _ _ _ _ _ Hr Henv), (unmarshalAt_run _ _ _ _ Hv), Hfail.
  eexists. split; [done|]. simpl. split; [|split; [|done]].
  - by rewrite lookup_insert_ne.
  - intros l Hl. by rewrite lookup_insert_ne.
Qed.

(** ** The address behind the pointer of [GetPath] *)

(** C10, as the client has it.  [GetPath] called with a pointer to an
    address, the request answered with status 200 and the body read
    without error.  If the address has no ref and the Content-Location
    header has a sixth piece when cut after each separator, that piece is
    written as the ref into the address behind the pointer, and the result
    holds that same address.  If the address comes with a ref, it stays as
    it is. *)
Theorem GetPath_writes_ref (path : loc) (p : Path) (w : World T) (resp : Response) :
  heap w !! path = Some (PathCell p) →
  transport (sent w) (mkCall "GET" (trailingGetURI p) ∅ None) = Responded resp →
  StatusCode resp = 200%Z →
  broken (Resp_Body resp) = None →
  (Ref p = "" →
   ∀ ref, SplitAfter (HeaderGet resp "Content-Location") slash !! 5 = Some ref →
     let p' := mkPath (Collection p) (Key p) ref in
     ∃ w',
       GetPath transport path w
       = (w', Returns (Some (mkKVResult p' (delivered (Resp_Body resp))), None))
       ∧ heap w' !! path = Some (PathCell p')
       ∧ (∀ l, l ≠ path → heap w' !! l = heap w !! l))
  ∧ (Ref p ≠ "" →
     ∃ w',
       GetPath transport path w
       = (w', Returns (Some (mkKVResult p (delivered (Resp_Body resp))), None))
       ∧ heap w' = heap w).
Proof.
  intros Hp Hresp Hstatus Hbody.
  rewrite (GetPath_run _ _ _ Hp). simpl.
  rewrite Hresp, decide_False by (rewrite Hstatus; naive_solver).
  rewrite Hbody. split.
  - intros Href ref Hpiece. rewrite decide_True, Hpiece by done.
    eexists. split; [done|]. simpl. split.
    + by rewrite lookup_insert_eq.
    + intros l Hl. by rewrite lookup_insert_ne.
  - intros Href. rewrite decide_False by done. by eexists.
Qed.

(** An address with a ref is never written, whatever the response. *)
Lemma GetPath_keeps_ref (path : loc) (p : Path) (w : World T) :
  heap w !! path = Some (PathCell p) →
  Ref p ≠ "" →
  heap (GetPath transport path w).1 = heap w.
Proof.
  intros Hp Href. rewrite (GetPath_run _ _ _ Hp). simpl.
  repeat case_match; done.
Qed.

End ClientFacts.

(** ** The calls against the canned service *)

(** The example header of the specification, with scheme and host in front:
    the segment after the refs marker is abc123, the client returns the
    sixth piece, which is the key with its separator.  And a header
    without any refs marker still yields a ref. *)
Lemma marker_search_refuted :
  refAfterMarker "https://host/v0/col/key/refs/abc123" = Some "abc123"
  ∧ doPut (T := unit) (errorDecoder := rejecting)
      (answering (created "https://host/v0/col/key/refs/abc123"))
      (mkPath "col" "key" "") ∅ "{}" emptyWorld
    = (mkWorld [mkCall "PUT" "col/key" ∅ (Some "{}")] ∅,
       Returns (Some (mkPath "col" "key" "key/"), None))
  ∧ refAfterMarker "/v0/col/key/versions/abc123" = None
  ∧ doPut (T := unit) (errorDecoder := rejecting)
      (answering (created "/v0/col/key/versions/abc123"))
      (mkPath "col" "key" "") ∅ "{}" emptyWorld
    = (mkWorld [mkCall "PUT" "col/key" ∅ (Some "{}")] ∅,
       Returns (Some (mkPath "col" "key" "abc123"), None)).
Proof. repeat split. Qed.

Lemma ref_is_sixth_piece_witness :
  SplitAfter "/v0/col/key/refs/abc123" slash !! 5 = Some "abc123"
  ∧ (doPut (T := unit) (errorDecoder := rejecting)
       (answering (created "/v0/col/key/refs/abc123"))
       (mkPath "col" "key" "") ∅ "{}" emptyWorld).2
    = Returns (Some (mkPath "col" "key" "abc123"), None)
  ∧ (GetPath (T := unit) (errorDecoder := rejecting)
       (answering (found "/v0/col/key/refs/abc123" "{}"))
       1%positive (mkWorld [] {[ 1%positive := PathCell (mkPath "col" "key" "") ]})).2
    = Returns (Some (mkKVResult (mkPath "col" "key" "abc123") "{}"), None)
  ∧ refAfterMarker "/v0/col/key/refs/abc123" = Some "abc123".
Proof.
  pose proof (ref_is_sixth_piece (T := unit) (errorDecoder := rejecting)
                (answering (created "/v0/col/key/refs/abc123"))
                "/v0/col/key/refs/abc123") as [Hput _].
  pose proof (ref_is_sixth_piece (T := unit) (errorDecoder := rejecting)
                (answering (found "/v0/col/key/refs/abc123" "{}"))
                "/v0/col/key/refs/abc123") as [_ [Hget Hshape]].
  split; [reflexivity|]. split; [|split].
  - apply (Hput "abc123" (mkPath "col" "key" "") ∅ "{}" emptyWorld
             (created "/v0/col/key/refs/abc123")); reflexivity.
  - apply (Hget "abc123" 1%positive (mkPath "col" "key" "")
             (mkWorld [] {[ 1%positive := PathCell (mkPath "col" "key" "") ]})
             (found "/v0/col/key/refs/abc123" "{}")); reflexivity.
  - apply (Hshape "col" "key" "abc123"); [reflexivity..| |]; discriminate.
Defined.

(** A page without continuation token, and a page whose token is shorter
    than the prefix: asking for the next page is no error return. *)
Lemma next_page_without_token :
  HasNext (mkKVResults 2 [] "") = false
  ∧ ListGetNext (T := unit) (errorDecoder := rejecting) (listDecoder := rejecting)
      (answering (notFound "")) (mkKVResults 2 [] "") emptyWorld
    = (emptyWorld, Panics "slice bounds out of range")
  ∧ HasNext (mkKVResults 2 [] "/v0") = true
  ∧ ListGetNext (T := unit) (errorDecoder := rejecting) (listDecoder := rejecting)
      (answering (notFound "")) (mkKVResults 2 [] "/v0") emptyWorld
    = (emptyWorld, Panics "slice bounds out of range").
Proof. repeat split. Qed.

Lemma next_page_witness :
  sliceFrom 4 "/v0/users?limit=2&afterKey=ada" = Some "users?limit=2&afterKey=ada"
  ∧ HasNext (mkKVResults 2 [] "/v0/users?limit=2&afterKey=ada") = true
  ∧ sent (ListGetNext (T := unit) (errorDecoder := rejecting) (listDecoder := rejecting)
            (answering (notFound ""))
            (mkKVResults 2 [] "/v0/users?limit=2&afterKey=ada") emptyWorld).1
    = [mkCall "GET" "users?limit=2&afterKey=ada" ∅ None]
  ∧ sent (ListGetNext (T := unit) (errorDecoder := rejecting) (listDecoder := rejecting)
            (answering (notFound "")) (mkKVResults 2 [] "") emptyWorld).1
    = [].
Proof.
  pose proof (next_page (T := unit) (errorDecoder := rejecting) (listDecoder := rejecting)
                (answering (notFound ""))
                (mkKVResults 2 [] "/v0/users?limit=2&afterKey=ada") emptyWorld)
    as [Hslice [Hprefix _]].
  pose proof (next_page (T := unit) (errorDecoder := rejecting) (listDecoder := rejecting)
                (answering (notFound "")) (mkKVResults 2 [] "") emptyWorld)
    as [_ [_ Hnone]].
  split; [reflexivity|]. split; [|split].
  - apply (Hprefix "users?limit=2&afterKey=ada"). reflexivity.
  - apply (Hslice "users?limit=2&afterKey=ada"). reflexivity.
  - apply Hnone. reflexivity.
Defined.

(** An update-only-if-current write and a conditional delete for an
    address without ref: both are sent, and answered. *)
Lemma empty_ref_write_is_sent :
  Ref (mkPath "col" "key" "") = ""
  ∧ PutIfUnmodifiedRaw (T := unit) (errorDecoder := rejecting)
      (answering (created "/v0/col/key/refs/abc123"))
      (mkPath "col" "key" "") "{}" emptyWorld
    = (mkWorld [mkCall "PUT" "col/key"
                  {[ "If-Match" := String "034" (String "034" "") ]} (Some "{}")] ∅,
       Returns (Some (mkPath "col" "key" "abc123"), None))
  ∧ DeleteIfUnmodified (T := unit) (errorDecoder := rejecting)
      (answering (mkResponse "204 No Content" 204 ∅ (mkBody "" None)))
      (mkPath "col" "key" "") emptyWorld
    = (mkWorld [mkCall "DELETE" "col/key"
                  {[ "If-Match" := String "034" (String "034" "") ]} None] ∅,
       Returns None).
Proof. repeat split. Qed.

Lemma empty_ref_precondition_sent_witness :
  Ref (mkPath "col" "key" "") = ""
  ∧ sent (PutIfUnmodifiedRaw (T := unit) (errorDecoder := rejecting)
            (answering (created "/v0/col/key/refs/abc123"))
            (mkPath "col" "key" "") "{}" emptyWorld).1
    = [] ++ [mkCall "PUT" "col/key"
               {[ "If-Match" := String "034" (String "034" "") ]} (Some "{}")]
  ∧ sent (DeleteIfUnmodified (T := unit) (errorDecoder := rejecting)
            (answering (created "/v0/col/key/refs/abc123"))
            (mkPath "col" "key" "") emptyWorld).1
    = [] ++ [mkCall "DELETE" "col/key"
               {[ "If-Match" := String "034" (String "034" "") ]} None].
Proof.
  split; [reflexivity|].
  apply (empty_ref_precondition_sent (T := unit) (errorDecoder := rejecting)
           (answering (created "/v0/col/key/refs/abc123"))
           (mkPath "col" "key" "") "{}" emptyWorld).
  reflexivity.
Defined.

(** An error body that [encoding/json] decodes in part before it fails:
    decoding reports an error, and the error the call returns carries the
    message decoded so far. *)
Lemma undecodable_body_keeps_message :
  (fieldwise (mkBody mismatchBody None) zeroOrchestrateError).2
  = Some (JSONError "json: cannot unmarshal number into Go struct field")
  ∧ StatusCode (notFound mismatchBody) ≠ 204%Z
  ∧ doDelete (T := unit) (errorDecoder := fieldwise)
      (answering (notFound mismatchBody)) "col/key" ∅ emptyWorld
    = (mkWorld [mkCall "DELETE" "col/key" ∅ None] ∅,
       Returns (Some (Orchestrate (mkOrchestrateError "404 Not Found" "boom" "")))).
Proof. repeat split. discriminate. Qed.

Lemma error_mapping_witness :
  runnable (T := unit) (OpDelete "col/key" ∅) emptyWorld
  ∧ (∀ call, answering (notFound "<html>") (sent (emptyWorld (T := unit))) call
             = Responded (notFound "<html>"))
  ∧ StatusCode (notFound "<html>") ≠ successStatus (OpDelete "col/key" ∅)
  ∧ ∃ w',
      perform (T := unit) (errorDecoder := rejecting) (listDecoder := rejecting)
        (eventsDecoder := rejecting) (graphDecoder := rejecting)
        (answering (notFound "<html>")) (OpDelete "col/key" ∅) emptyWorld
      = (w', Returns (Some (Orchestrate (mkOrchestrateError "404 Not Found" "" "")))).
Proof.
  assert (runnable (T := unit) (OpDelete "col/key" ∅) emptyWorld) as Hrun
    by exact I.
  assert (∀ call, answering (notFound "<html>") (sent (emptyWorld (T := unit))) call
                  = Responded (notFound "<html>")) as Hresp
    by (intros call; reflexivity).
  assert (StatusCode (notFound "<html>") ≠ successStatus (OpDelete "col/key" ∅))
    as Hstatus by discriminate.
  split; [exact Hrun|]. split; [exact Hresp|]. split; [exact Hstatus|].
  destruct (error_mapping (T := unit) (errorDecoder := rejecting) (listDecoder := rejecting)
              (eventsDecoder := rejecting) (graphDecoder := rejecting)
              (answering (notFound "<html>")) (OpDelete "col/key" ∅) emptyWorld
              (notFound "<html>") Hrun Hresp Hstatus) as [w' [Herr _]].
  exists w'. exact Herr.
Defined.

(** Reading an address without collection, and one without key: the GET
    is sent, to a path with nothing before, respectively after, the
    separator, and the value comes back. *)
Lemma empty_collection_read_is_sent :
  Get (T := unit) (errorDecoder := rejecting)
    (answering (found "/v0/col/key/refs/abc123" "{}")) "" "key" emptyWorld
  = (mkWorld [mkCall "GET" "/key" ∅ None]
       {[ 1%positive := PathCell (mkPath "" "key" "abc123") ]},
     Returns (Some (mkKVResult (mkPath "" "key" "abc123") "{}"), None))
  ∧ Get (T := unit) (errorDecoder := rejecting)
      (answering (found "/v0/col/key/refs/abc123" "{}")) "col" "" emptyWorld
    = (mkWorld [mkCall "GET" "col/" ∅ None]
         {[ 1%positive := PathCell (mkPath "col" "" "abc123") ]},
       Returns (Some (mkKVResult (mkPath "col" "" "abc123") "{}"), None)).
Proof. split; vm_compute; reflexivity. Qed.

Lemma empty_address_read_path_witness :
  (Collection (mkPath "" "key" "") = "" ∨ Key (mkPath "" "key" "") = "")
  ∧ heap (mkWorld (T := unit) [] {[ 1%positive := PathCell (mkPath "" "key" "") ]})
      !! 1%positive = Some (PathCell (mkPath "" "key" ""))
  ∧ trailingGetURI (mkPath "" "key" "") = "/key"
  ∧ sent (GetPath (T := unit) (errorDecoder := rejecting)
            (answering (found "/v0/col/key/refs/abc123" "{}")) 1%positive
            (mkWorld [] {[ 1%positive := PathCell (mkPath "" "key" "") ]})).1
    = [mkCall "GET" "/key" ∅ None].
Proof.
  split; [left; reflexivity|]. split; [reflexivity|].
  apply (empty_address_read_path (T := unit) (errorDecoder := rejecting)
           (answering (found "/v0/col/key/refs/abc123" "{}")) 1%positive
           (mkPath "" "key" "")
           (mkWorld [] {[ 1%positive := PathCell (mkPath "" "key" "") ]})).
  - left. reflexivity.
  - reflexivity.
Defined.

Lemma relation_paths_witness :
  ["friends"; "colleagues"] ≠ []
  ∧ sent (GetRelations (T := unit) (errorDecoder := rejecting) (graphDecoder := rejecting)
            (answering (notFound "")) "users" "ada" ["friends"; "colleagues"]
            emptyWorld).1
    = [mkCall "GET" "users/ada/relations/friends/colleagues" ∅ None]
  ∧ Split "users/ada/relations/friends/colleagues" slash
    = ["users"; "ada"; "relations"; "friends"; "colleagues"]
  ∧ sent (PutRelation (T := unit) (errorDecoder := rejecting)
            (answering (notFound "")) "users" "ada" "friend" "users" "bob"
            emptyWorld).1
    = [mkCall "PUT" "users/ada/relation/friend/users/bob" ∅ None].
Proof.
  assert (["friends"; "colleagues"] ≠ []) as Hne by discriminate.
  split; [exact Hne|].
  destruct (relation_paths (T := unit) (errorDecoder := rejecting) (graphDecoder := rejecting)
              (answering (notFound "")) "users" "ada" ["friends"; "colleagues"]
              "users" "ada" "friend" "users" "bob" emptyWorld Hne)
    as (Hget & _ & Hsplit & Hput).
  split; [exact Hget|]. split; [|exact Hput].
  apply Hsplit. repeat constructor.
Defined.

(** An event handed to its own [Value] as the target, with a payload that
    fits the ordinal and not the timestamp: decoding fails, and the ordinal
    of the envelope has changed from 1 to 7. *)
Lemma envelope_as_its_own_target :
  heap selfDecodingWorld !! 1%positive = Some (EventCell (mkEvent 1 1000 selfPayload))
  ∧ Event_Value (unmarshaler := memberwise) 1%positive 1%positive selfDecodingWorld
    = (mkWorld [] {[ 1%positive := EventCell (mkEvent 7 1000 selfPayload) ]},
       Returns (Some (JSONError
          "json: cannot unmarshal string into Go struct field Event.timestamp")))
  ∧ EventCell (T := unit) (mkEvent 7 1000 selfPayload)
    ≠ EventCell (mkEvent 1 1000 selfPayload).
Proof. split; [reflexivity|]. split; [vm_compute; reflexivity|discriminate]. Qed.

Lemma Value_failure_keeps_envelope_witness :
  heap decodingWorld !! 1%positive = Some heldResult
  ∧ envelopeValue (unmarshaler := halting) heldResult
    = Some ("{", KVResult_Value (unmarshaler := halting))
  ∧ heap decodingWorld !! 2%positive = Some (TargetCell "")
  ∧ 2%positive ≠ 1%positive
  ∧ halting "{" (TargetCell "") = (TargetCell "", Some "unexpected end of JSON input")
  ∧ ∃ w',
      KVResult_Value (unmarshaler := halting) 1%positive 2%positive decodingWorld
      = (w', Returns (Some (JSONError "unexpected end of JSON input")))
      ∧ heap w' !! 1%positive = Some heldResult
      ∧ (∀ l, l ≠ 2%positive → heap w' !! l = heap decodingWorld !! l)
      ∧ sent w' = sent decodingWorld.
Proof.
  assert (heap decodingWorld !! 1%positive = Some heldResult) as Hr by reflexivity.
  assert (envelopeValue (unmarshaler := halting) heldResult
          = Some ("{", KVResult_Value (unmarshaler := halting))) as Henv
    by reflexivity.
  assert (heap decodingWorld !! 2%positive = Some (TargetCell "")) as Hv
    by reflexivity.
  assert (2%positive ≠ 1%positive) as Hne by discriminate.
  assert (halting "{" (TargetCell "")
          = (TargetCell "", Some "unexpected end of JSON input")) as Hfail
    by reflexivity.
  repeat (split; [assumption|]).
  exact (Value_failure_keeps_envelope (unmarshaler := halting)
           1%positive 2%positive heldResult (TargetCell "") "{"
           (KVResult_Value (unmarshaler := halting)) (TargetCell "")
           "unexpected end of JSON input" decodingWorld Hr Henv Hv Hne Hfail).
Defined.

(** Status 200 and an address without ref, yet nothing is written: once
    because reading the body fails, once because the response has no
    Content-Location header. *)
Lemma status_200_without_write :
  Ref (mkPath "col" "key" "") = ""
  ∧ GetPath (errorDecoder := rejecting)
      (answering (mkResponse "200 OK" 200
                    {[ "Content-Location" := "/v0/col/key/refs/abc123" ]}
                    (mkBody "{" (Some "unexpected EOF"))))
      1%positive readingWorld
    = (after readingWorld (mkCall "GET" "col/key" ∅ None),
       Returns (None, Some (ReadError "unexpected EOF")))
  ∧ GetPath (errorDecoder := rejecting)
      (answering (mkResponse "200 OK" 200 ∅ (mkBody "{}" None)))
      1%positive readingWorld
    = (after readingWorld (mkCall "GET" "col/key" ∅ None),
       Panics "index out of range")
  ∧ heap (after readingWorld (mkCall "GET" "col/key" ∅ None)) !! 1%positive
    = Some (PathCell (mkPath "col" "key" "")).
Proof. repeat split. Qed.

Lemma GetPath_writes_ref_witness :
  heap readingWorld !! 1%positive = Some (PathCell (mkPath "col" "key" ""))
  ∧ answering (found "/v0/col/key/refs/abc123" "{}") (sent readingWorld)
      (mkCall "GET" (trailingGetURI (mkPath "col" "key" "")) ∅ None)
    = Responded (found "/v0/col/key/refs/abc123" "{}")
  ∧ StatusCode (found "/v0/col/key/refs/abc123" "{}") = 200%Z
  ∧ broken (Resp_Body (found "/v0/col/key/refs/abc123" "{}")) = None
  ∧ SplitAfter (HeaderGet (found "/v0/col/key/refs/abc123" "{}") "Content-Location")
      slash !! 5 = Some "abc123"
  ∧ ∃ w',
      GetPath (errorDecoder := rejecting) (answering (found "/v0/col/key/refs/abc123" "{}"))
        1%positive readingWorld
      = (w', Returns (Some (mkKVResult (mkPath "col" "key" "abc123") "{}"), None))
      ∧ heap w' !! 1%positive = Some (PathCell (mkPath "col" "key" "abc123"))
      ∧ (∀ l, l ≠ 1%positive → heap w' !! l = heap readingWorld !! l).
Proof.
  set (p := mkPath "col" "key" "").
  set (resp := found "/v0/col/key/refs/abc123" "{}").
  assert (heap readingWorld !! 1%positive = Some (PathCell p)) as Hp by reflexivity.
  assert (answering resp (sent readingWorld) (mkCall "GET" (trailingGetURI p) ∅ None)
          = Responded resp) as Hresp by reflexivity.
  assert (StatusCode resp = 200%Z) as Hstatus by reflexivity.
  assert (broken (Resp_Body resp) = None) as Hbody by reflexivity.
  assert (SplitAfter (HeaderGet resp "Content-Location") slash !! 5 = Some "abc123")
    as Hpiece by reflexivity.
  repeat (split; [assumption|]).
  destruct (GetPath_writes_ref (T := unit) (errorDecoder := rejecting) (answering resp)
              1%positive p readingWorld resp Hp Hresp Hstatus Hbody) as [Hwrite _].
  exact (Hwrite eq_refl "abc123" Hpiece).
Defined.

(** ** The pieces of a split string *)

Lemma countByte_app (sep : ascii) (a b : string) :
  countByte sep (a +:+ b) = countByte sep a + countByte sep b.
Proof.
  induction a as [|x a IH]; [done|].
  rewrite append_cons. simpl. rewrite IH. lia.
Qed.

(** Where a piece of [SplitAfter] sits: the string is what comes before the
    piece, the piece, and what comes after; before the [n]-th piece there
    are exactly [n] separators, the last of them right in front of it; the
    piece has no separator, or a single one as its last byte, and only the
    last piece of all has none. *)
Lemma SplitAfter_lookup (sep : ascii) (s : string) (n : nat) (piece : string) :
  SplitAfter s sep !! n = Some piece →
  ∃ before after,
    s = before +:+ piece +:+ after
    ∧ countByte sep before = n
    ∧ (before = "" ∨ ∃ b, before = b +:+ String sep "")
    ∧ ((occurs sep piece = false ∧ after = "")
       ∨ ∃ body, piece = body +:+ String sep "" ∧ occurs sep body = false).
Proof.
  unfold SplitAfter. revert n piece.
  induction s as [|c s IH]; intros n piece; simpl.
  - destruct n as [|n]; [|done]. intros [= <-].
    exists "", "". repeat split; [by left|by left].
  - destruct (splitAfterFrom sep s) as [p ps] eqn:Hsplit.
    destruct (decide (c = sep)) as [->|Hc].
    + destruct n as [|n]; simpl.
      * intros [= <-]. exists "", s. repeat split; [by left|].
        right. by exists "".
      * intros Hn.
        destruct (IH n piece Hn) as (before & after & -> & Hcount & Hend & Hpiece).
        exists (String sep before), after. rewrite append_cons. simpl.
        rewrite decide_True by done. repeat split; [lia| |done].
        right. destruct Hend as [->|[b ->]]; [by exists ""|by exists (String sep b)].
    + destruct n as [|n]; simpl.
      * intros [= <-].
        destruct (IH 0 p eq_refl) as (before & after & -> & Hcount & Hend & Hpiece).
        destruct Hend as [->|[b ->]].
        2:{ rewrite countByte_app in Hcount. simpl in Hcount.
            rewrite decide_True in Hcount by done. lia. }
        exists "", after. rewrite !append_nil, append_cons.
        repeat split; [by left|].
        destruct Hpiece as [[Hfree ->]|[body [-> Hfree]]].
        -- left. split; [|done]. simpl. rewrite Hfree.
           by rewrite bool_decide_eq_false_2.
        -- right. exists (String c body). split; [done|]. simpl. rewrite Hfree.
           by rewrite bool_decide_eq_false_2.
      * intros Hn.
        destruct (IH (S n) piece Hn) as (before & after & -> & Hcount & Hend & Hpiece).
        exists (String c before), after. rewrite append_cons. simpl.
        rewrite decide_False by done. repeat split; [done| |done].
        right. destruct Hend as [->|[b ->]]; [done|by exists (String c b)].
Qed.

(** ** Beyond single requests: failures, frames and sequences of calls *)

Section ClientMore.
Context {T V : Type}.
Variable transport : list Call → Call → Reply.
Variable FormatInt : Z → Z → string.
Variable ValuesEncode : gmap string (list string) → string.
Context {errorDecoder : Decoder OrchestrateError} {listDecoder : Decoder KVResults}
        {eventsDecoder : Decoder EventResults} {graphDecoder : Decoder GraphResults}
        {unmarshaler : Unmarshaler (Cell T)} {encoder : Encoder V}.

Lemma doGetEvents_run (trailingUri : string) (w : World T) :
  doGetEvents transport trailingUri w
  = let call := mkCall "GET" trailingUri ∅ None in
    (after w call,
     Returns match transport (sent w) call with
             | Failed err => (None, Some (TransportError err))
             | Responded resp =>
                 if decide (StatusCode resp ≠ 200%Z) then (None, Some (newError resp))
                 else match Decode (Resp_Body resp) zeroEventResults with
                      | (_, Some err) => (None, Some err)
                      | (results, None) => (Some results, None)
                      end
             end).
Proof.
  unfold doGetEvents. go_unfold. simpl.
  destruct (transport _ _) as [resp|err]; [|done].
  destruct (decide (StatusCode resp ≠ 200%Z)); [done|].
  by destruct (Decode _ _) as [results [err|]].
Qed.

Lemma GetRelations_run (collection key : string) (hops : list string) (w : World T) :
  GetRelations transport collection key hops w
  = let call := mkCall "GET"
                  (collection +:+ "/" +:+ key +:+ "/relations/" +:+ Join hops "/")
                  ∅ None in
    (after w call,
     Returns match transport (sent w) call with
             | Failed err => (None, Some (TransportError err))
             | Responded resp =>
                 if decide (StatusCode resp ≠ 200%Z) then (None, Some (newError resp))
                 else match Decode (Resp_Body resp) zeroGraphResults with
                      | (_, Some err) => (None, Some err)
                      | (result, None) => (Some result, None)
                      end
             end).
Proof.
  unfold GetRelations. go_unfold. simpl.
  destruct (transport _ _) as [resp|err]; [|done].
  destruct (decide (StatusCode resp ≠ 200%Z)); [done|].
  by destruct (Decode _ _) as [results [err|]].
Qed.

Lemma doPutEvent_run (trailingUri value : string) (w : World T) :
  doPutEvent transport trailingUri value w
  = let call := mkCall "PUT" trailingUri ∅ (Some value) in
    (after w call,
     Returns match transport (sent w) call with
             | Failed err => Some (TransportError err)
             | Responded resp =>
                 if decide (StatusCode resp ≠ 204%Z) then Some (newError resp) else None
             end).
Proof.
  unfold doPutEvent. go_unfold. simpl.
  destruct (transport _ _) as [resp|err]; [|done].
  by destruct (decide (StatusCode resp ≠ 204%Z)).
Qed.

Lemma PutRelation_run (sc sk kind c k : string) (w : World T) :
  PutRelation transport sc sk kind c k w
  = let call := mkCall "PUT"
                  (sc +:+ "/" +:+ sk +:+ "/relation/" +:+ kind +:+ "/" +:+ c
                   +:+ "/" +:+ k) ∅ None in
    (after w call,
     Returns match transport (sent w) call with
             | Failed err => Some (TransportError err)
             | Responded resp =>
                 if decide (StatusCode resp ≠ 204%Z) then Some (newError resp) else None
             end).
Proof.
  unfold PutRelation. go_unfold. simpl.
  destruct (transport _ _) as [resp|err]; [|done].
  by destruct (decide (StatusCode resp ≠ 204%Z)).
Qed.

(** X1.  When the transport fails, every call returns the transport's error
    as it is: no error of the client's own making, no decoding, no panic. *)
Theorem transport_failure_surfaces (op : Operation) (w : World T) (msg : string) :
  runnable op w →
  (∀ call, transport (sent w) call = Failed msg) →
  ∃ w', perform transport op w = (w', Returns (Some (TransportError msg))).
Proof.
  intros Hrun Hfail.
  destruct op as [path|collection key|path headers value|uri headers|uri|uri|uri value
                 |collection key hops|sc sk kind c k]; simpl in Hrun; simpl.
  - destruct Hrun as [p Hp]. eexists.
    unfold mbind at 1, Go_bind. rewrite (GetPath_run _ _ _ _ Hp). simpl.
    by rewrite Hfail.
  - destruct (Get_run transport collection key w) as [Hget Hp]. eexists.
    unfold mbind at 1, Go_bind. rewrite Hget, (GetPath_run _ _ _ _ Hp). simpl.
    by rewrite Hfail.
  - eexists. unfold mbind at 1, Go_bind. rewrite doPut_run. simpl. by rewrite Hfail.
  - eexists. rewrite doDelete_run. simpl. by rewrite Hfail.
  - eexists. unfold mbind at 1, Go_bind. rewrite doList_run. simpl. by rewrite Hfail.
  - eexists. unfold mbind at 1, Go_bind. rewrite doGetEvents_run. simpl.
    by rewrite Hfail.
  - eexists. rewrite doPutEvent_run. simpl. by rewrite Hfail.
  - eexists. unfold mbind at 1, Go_bind. rewrite GetRelations_run. simpl.
    by rewrite Hfail.
  - eexists. rewrite PutRelation_run. simpl. by rewrite Hfail.
Qed.

(** The world a call leaves does not depend on what is kept of its
    results. *)
Lemma bind_ret_world {A B : Type} (m : Go T A) (f : A → B) (w : World T) :
  ((r ← m; mret (f r)) w).1 = (m w).1.
Proof. unfold mbind, mret, Go_bind, Go_ret. by destruct (m w) as [w' [r|msg]]. Qed.

Lemma GetPath_heap_other (path l : loc) (p : Path) (w : World T) :
  heap w !! path = Some (PathCell p) →
  l ≠ path →
  heap (GetPath transport path w).1 !! l = heap w !! l.
Proof.
  intros Hp Hl. rewrite (GetPath_run _ _ _ _ Hp). simpl.
  repeat case_match; simpl; try done. by rewrite lookup_insert_ne.
Qed.

(** X4.  [GetPath] writes the address only when it returns a result: when
    it returns an error, whichever, or panics, the address behind the
    pointer and every other object are as before. *)
Theorem GetPath_failure_keeps_path (path : loc) (p : Path) (w w' : World T)
    (out : Outcome (option KVResult * option error)) :
  heap w !! path = Some (PathCell p) →
  GetPath transport path w = (w', out) →
  (∀ r, out ≠ Returns (Some r, None)) →
  heap w' = heap w.
Proof.
  intros Hp Hrun Hfail. rewrite (GetPath_run _ _ _ _ Hp) in Hrun. simpl in Hrun.
  repeat case_match; simplify_eq; try done.
  by destruct (Hfail _ eq_refl).
Qed.

(** X5.  A read pins the address.  After [GetPath] has returned the value
    of an address without ref, together with a ref that is not empty, the
    address behind the pointer holds that ref: the next [GetPath] through
    the same pointer asks for that version, collection/key/refs/ref, not
    for the latest value, and leaves the address alone. *)
Theorem GetPath_pins_address (path : loc) (p : Path) (w w1 : World T) (r : KVResult) :
  heap w !! path = Some (PathCell p) →
  Ref p = "" →
  GetPath transport path w = (w1, Returns (Some r, None)) →
  Ref (KVResult_Path r) ≠ "" →
  heap w1 !! path = Some (PathCell (KVResult_Path r))
  ∧ sent (GetPath transport path w1).1
    = sent w1 ++ [mkCall "GET"
                    (Collection p +:+ "/" +:+ Key p +:+ "/refs/"
                     +:+ Ref (KVResult_Path r)) ∅ None]
  ∧ heap (GetPath transport path w1).1 = heap w1.
Proof.
  intros Hp Href Hrun Hpinned.
  rewrite (GetPath_run _ _ _ _ Hp) in Hrun. simpl in Hrun.
  assert (heap w1 !! path = Some (PathCell (KVResult_Path r))
          ∧ Collection (KVResult_Path r) = Collection p
          ∧ Key (KVResult_Path r) = Key p) as (Hp1 & Hc & Hk).
  { repeat case_match; simplify_eq; simpl.
    by rewrite lookup_insert_eq. }
  split; [done|]. split.
  - rewrite (GetPath_sent _ _ _ _ Hp1). unfold trailingGetURI.
    by rewrite decide_True, Hc, Hk.
  - by apply (GetPath_keeps_ref _ _ _ _ Hp1).
Qed.

(** X6.  The address a write returns serves the calls that follow.  It has
    the collection and key of the address written to and the ref of the
    response, whatever ref the address written to had; handed to the
    conditional write or delete it makes them send If-Match with that ref
    between quotes, to the same path; and, the ref not being empty, a read
    of it asks for collection/key/refs/ref. *)
Theorem written_address_serves (path p' : Path) (headers : gmap string string)
    (value : string) (w w1 : World T) :
  doPut transport path headers value w = (w1, Returns (Some p', None)) →
  Collection p' = Collection path ∧ Key p' = Key path
  ∧ (∀ (value' : string) (w2 : World T),
       sent (PutIfUnmodifiedRaw transport p' value' w2).1
       = sent w2 ++ [mkCall "PUT" (trailingPutURI path)
                       {[ "If-Match" := String "034" (Ref p' +:+ String "034" "") ]}
                       (Some value')])
  ∧ (∀ w2 : World T,
       sent (DeleteIfUnmodified transport p' w2).1
       = sent w2 ++ [mkCall "DELETE" (trailingPutURI path)
                       {[ "If-Match" := String "034" (Ref p' +:+ String "034" "") ]}
                       None])
  ∧ (Ref p' ≠ "" →
     ∀ (l : loc) (w2 : World T), heap w2 !! l = Some (PathCell p') →
       sent (GetPath transport l w2).1
       = sent w2 ++ [mkCall "GET"
                       (Collection path +:+ "/" +:+ Key path +:+ "/refs/" +:+ Ref p')
                       ∅ None]).
Proof.
  intros Hrun. rewrite doPut_run in Hrun. simpl in Hrun.
  assert (Collection p' = Collection path ∧ Key p' = Key path) as [Hc Hk].
  { by repeat case_match; simplify_eq. }
  split; [done|]. split; [done|]. split; [|split].
  - intros value' w2. unfold PutIfUnmodifiedRaw. rewrite doPut_sent.
    unfold trailingPutURI. by rewrite Hc, Hk.
  - intros w2. unfold DeleteIfUnmodified. rewrite doDelete_run. simpl.
    unfold trailingPutURI. by rewrite Hc, Hk.
  - intros Href l w2 Hl. rewrite (GetPath_sent _ _ _ _ Hl). unfold trailingGetURI.
    by rewrite decide_True, Hc, Hk.
Qed.

(** X7.  A response with status 200 whose body cannot be decoded: a listing
    returns the page as far as it was decoded together with the error,
    while the event and relation reads return the error and no result. *)
Theorem undecodable_results (uri collection key : string) (hops : list string)
    (w : World T) (resp : Response) :
  (∀ call, transport (sent w) call = Responded resp) →
  StatusCode resp = 200%Z →
  (∀ page err, Decode (Resp_Body resp) zeroKVResults = (page, Some err) →
     (doList transport uri w).2 = Returns (Some page, Some err))
  ∧ (∀ results err, Decode (Resp_Body resp) zeroEventResults = (results, Some err) →
     (doGetEvents transport uri w).2 = Returns (None, Some err))
  ∧ (∀ results err, Decode (Resp_Body resp) zeroGraphResults = (results, Some err) →
     (GetRelations transport collection key hops w).2 = Returns (None, Some err)).
Proof.
  intros Hresp Hstatus.
  assert (¬ StatusCode resp ≠ 200%Z) as Hok by (rewrite Hstatus; naive_solver).
  split; [|split]; intros decoded err Hdec.
  - rewrite doList_run. simpl. by rewrite Hresp, decide_False, Hdec.
  - rewrite doGetEvents_run. simpl. by rewrite Hresp, decide_False, Hdec.
  - rewrite GetRelations_run. simpl. by rewrite Hresp, decide_False, Hdec.
Qed.

(** What [s[n:]] is, by the length of [s]. *)
Lemma sliceFrom_short_iff (n : nat) (s : string) :
  sliceFrom n s = None ↔ String.length s < n.
Proof.
  revert s. induction n as [|n IH]; intros s; simpl.
  - split; [done|lia].
  - destruct s as [|c s]; simpl; [split; [lia|done]|].
    rewrite IH. lia.
Qed.

Lemma sliceFrom_suffix (n : nat) (s rest : string) :
  sliceFrom n s = Some rest →
  ∃ prefix, s = prefix +:+ rest ∧ String.length prefix = n.
Proof.
  revert s. induction n as [|n IH]; intros s; simpl.
  - intros [= ->]. by exists "".
  - destruct s as [|c s]; [done|]. intros Hs.
    destruct (IH s Hs) as (prefix & -> & Hlen).
    exists (String c prefix). simpl. by rewrite Hlen.
Qed.

(** X8.  Asking for the next page, by the length of the token.  With a
    token of fewer than four bytes, the empty one included, [ListGetNext]
    panics and sends nothing, even when [HasNext] holds; with four bytes or
    more it sends one GET, to the token without its first four bytes,
    whatever these are. *)
Theorem ListGetNext_by_length (results : KVResults) (w : World T) :
  (String.length (Next results) < 4 →
   ListGetNext transport results w = (w, Panics "slice bounds out of range"))
  ∧ (4 ≤ String.length (Next results) →
     ∃ prefix rest,
       Next results = prefix +:+ rest
       ∧ String.length prefix = 4
       ∧ sent (ListGetNext transport results w).1
         = sent w ++ [mkCall "GET" rest ∅ None]).
Proof.
  unfold ListGetNext. split; intros Hlen.
  - apply sliceFrom_short_iff in Hlen. by rewrite Hlen.
  - destruct (sliceFrom 4 (Next results)) as [rest|] eqn:Hslice.
    + destruct (sliceFrom_suffix _ _ _ Hslice) as (prefix & Hnext & Hprefix).
      exists prefix, rest. by rewrite doList_run.
    + apply sliceFrom_short_iff in Hslice. lia.
Qed.

(** X9.  Where the ref of a write comes from.  The ref that [doPut] returns
    is a stretch of the Location header: in front of it the header has
    exactly five separators, the last right before the ref; the ref itself
    has no separator and reaches to the end of the header, or ends with
    the next separator and has none before. *)
Theorem written_ref_position (path p' : Path) (headers : gmap string string)
    (value : string) (w w1 : World T) (resp : Response) :
  transport (sent w) (mkCall "PUT" (trailingPutURI path) headers (Some value))
  = Responded resp →
  doPut transport path headers value w = (w1, Returns (Some p', None)) →
  ∃ before after,
    HeaderGet resp "Location" = (before +:+ "/") +:+ Ref p' +:+ after
    ∧ countByte slash before = 4
    ∧ ((occurs slash (Ref p') = false ∧ after = "")
       ∨ ∃ body, Ref p' = body +:+ "/" ∧ occurs slash body = false).
Proof.
  intros Hresp Hrun. rewrite doPut_run in Hrun. simpl in Hrun.
  rewrite Hresp in Hrun.
  destruct (decide (StatusCode resp ≠ 201%Z)); [done|].
  destruct (SplitAfter (HeaderGet resp "Location") slash !! 5) as [ref|] eqn:Hpiece;
    [|done].
  simplify_eq. simpl.
  destruct (SplitAfter_lookup _ _ _ _ Hpiece)
    as (before & after & Hheader & Hcount & Hend & Hshape).
  destruct Hend as [->|[b ->]]; [done|].
  exists b, after. split; [done|]. split; [|done].
  rewrite countByte_app in Hcount. simpl in Hcount. lia.
Qed.

(** The read path, cut at the separators. *)
Lemma read_path_segments (p : Path) :
  occurs slash (Collection p) = false →
  occurs slash (Key p) = false →
  occurs slash (Ref p) = false →
  Split (trailingGetURI p) slash
  = if decide (Ref p = "") then [Collection p; Key p]
    else [Collection p; Key p; "refs"; Ref p].
Proof.
  intros Hc Hk Hr. unfold trailingGetURI.
  destruct (decide (Ref p = "")) as [Href|Href].
  - rewrite decide_False by naive_solver.
    change (Collection p +:+ "/" +:+ Key p)
      with (Collection p +:+ String slash (Key p)).
    rewrite Split_cons by done. by rewrite Split_last.
  - rewrite decide_True by done.
    change (Collection p +:+ "/" +:+ Key p +:+ "/refs/" +:+ Ref p)
      with (Collection p +:+ String slash (Key p +:+ String slash
              ("refs" +:+ String slash (Ref p)))).
    rewrite !Split_cons by done. by rewrite Split_last.
Qed.

(** X10.  Addresses whose collection, key and ref hold no separator are
    told apart by their read paths: two different addresses have different
    read paths.  (The client escapes nothing, so the condition matters.) *)
Theorem read_paths_distinct (p q : Path) :
  occurs slash (Collection p) = false → occurs slash (Key p) = false →
  occurs slash (Ref p) = false →
  occurs slash (Collection q) = false → occurs slash (Key q) = false →
  occurs slash (Ref q) = false →
  p ≠ q →
  trailingGetURI p ≠ trailingGetURI q.
Proof.
  intros Hpc Hpk Hpr Hqc Hqk Hqr Hne Huri. apply Hne.
  pose proof (read_path_segments p Hpc Hpk Hpr) as Hp.
  pose proof (read_path_segments q Hqc Hqk Hqr) as Hq.
  rewrite Huri, Hq in Hp. clear -Hp.
  destruct p as [pc pk pr], q as [qc qk qr]. simpl in *.
  repeat case_match; by simplify_eq.
Qed.

(** X11.  A value that cannot be encoded is never sent: each of the
    encoding writes returns the encoding error and leaves the world as it
    was, without a request. *)
Theorem unencodable_value_not_sent (path : Path) (collection key kind : string)
    (time : Z) (value : V) (buf err : string) (w : World T) :
  Encode value = (buf, Some err) →
  Put transport collection key value w = (w, Returns (None, Some (JSONError err)))
  ∧ PutIfAbsent transport collection key value w
    = (w, Returns (None, Some (JSONError err)))
  ∧ PutIfUnmodified transport path value w
    = (w, Returns (None, Some (JSONError err)))
  ∧ PutEvent transport collection key kind value w
    = (w, Returns (Some (JSONError err)))
  ∧ PutEventWithTime transport FormatInt ValuesEncode collection key kind time value w
    = (w, Returns (Some (JSONError err))).
Proof.
  intros Henc.
  unfold Put, PutIfAbsent, PutIfUnmodified, PutEvent, PutEventWithTime.
  by rewrite Henc.
Qed.

(** The error of a call that expects status 204, by the reply. *)
Lemma no_content_reply (reply : Reply) :
  Returns (A := option error)
    match reply with
    | Failed err => Some (TransportError err)
    | Responded resp =>
        if decide (StatusCode resp ≠ 204%Z) then Some (newError resp) else None
    end = Returns None
  ↔ ∃ resp, reply = Responded resp ∧ StatusCode resp = 204%Z.
Proof.
  destruct reply as [resp|err].
  - destruct (decide (StatusCode resp ≠ 204%Z)) as [Hs|Hs].
    + split; [done|]. intros (resp' & [= <-] & Hok). done.
    + split; [|done]. intros _. exists resp. split; [done|].
      by destruct (decide (StatusCode resp = 204%Z)).
  - split; [done|]. by intros (resp' & ? & ?).
Qed.

(** X12.  The calls that expect status 204 return no error exactly when the
    transport answered and the status of the answer is 204: a delete, an
    event put, a relation put. *)
Theorem no_error_iff_no_content (uri value sc sk kind c k : string)
    (headers : gmap string string) (w : World T) :
  ((doDelete transport uri headers w).2 = Returns None
   ↔ ∃ resp, transport (sent w) (mkCall "DELETE" uri headers None) = Responded resp
             ∧ StatusCode resp = 204%Z)
  ∧ ((doPutEvent transport uri value w).2 = Returns None
     ↔ ∃ resp, transport (sent w) (mkCall "PUT" uri ∅ (Some value)) = Responded resp
               ∧ StatusCode resp = 204%Z)
  ∧ ((PutRelation transport sc sk kind c k w).2 = Returns None
     ↔ ∃ resp, transport (sent w)
                 (mkCall "PUT" (sc +:+ "/" +:+ sk +:+ "/relation/" +:+ kind +:+ "/"
                                +:+ c +:+ "/" +:+ k) ∅ None) = Responded resp
               ∧ StatusCode resp = 204%Z).
Proof.
  rewrite doDelete_run, doPutEvent_run, PutRelation_run. simpl.
  split; [|split]; apply no_content_reply.
Qed.

Lemma prefix_append (a b : string) : String.prefix a (a +:+ b) = true.
Proof.
  induction a as [|x a IH]; [by destruct b|].
  rewrite append_cons. simpl. by destruct (Ascii.ascii_dec x x).
Qed.

(** X13.  The text of the error a failed call returns leads with the status
    line of the response: it is the status line, a colon, a space, and the
    message decoded from the body; the locator is not part of it. *)
Theorem error_text_leads_with_status (resp : Response) :
  ∃ e, newError resp = Orchestrate e
       ∧ Error e = Resp_Status resp +:+ ": "
                   +:+ Message (Decode (Resp_Body resp) zeroOrchestrateError).1
       ∧ String.prefix (Resp_Status resp) (Error e) = true.
Proof.
  rewrite newError_fields. eexists. split; [done|]. unfold Error. simpl.
  split; [done|]. apply prefix_append.
Qed.

(** X15.  [Value] of an envelope, whatever comes of the decoding (success,
    failure, no target at all): no request is sent, and no object other
    than the target is written. *)
Theorem Value_writes_only_target (result value : loc) (env : Cell T) (raw : string)
    (Value : loc → loc → Go T (option error)) (w : World T) :
  heap w !! result = Some env →
  envelopeValue env = Some (raw, Value) →
  sent (Value result value w).1 = sent w
  ∧ ∀ l, l ≠ value → heap (Value result value w).1 !! l = heap w !! l.
Proof.
  intros Hr Henv. rewrite (Value_run _ _ _ _ _ _ Hr Henv). unfold unmarshalAt.
  destruct (heap w !! value) as [target|]; [|done].
  destruct (Unmarshal raw target) as [target' err]. simpl.
  split; [done|]. intros l Hl. by rewrite lookup_insert_ne.
Qed.

(** X16.  Hops are not escaped: a hop that holds a separator is read as
    the two hops around it, so both lists of hops lead to the same
    request. *)
Theorem hops_not_escaped (collection key hop hop' : string) (hops : list string)
    (w : World T) :
  Join ((hop +:+ "/" +:+ hop') :: hops) "/" = Join (hop :: hop' :: hops) "/"
  ∧ GetRelations transport collection key ((hop +:+ "/" +:+ hop') :: hops) w
    = GetRelations transport collection key (hop :: hop' :: hops) w.
Proof.
  assert (Join ((hop +:+ "/" +:+ hop') :: hops) "/" = Join (hop :: hop' :: hops) "/")
    as Hjoin.
  { destruct hops as [|hop'' hops]; [done|].
    rewrite !Join_cons. by rewrite append_assoc, append_cons. }
  split; [done|]. by rewrite !GetRelations_run, Hjoin.
Qed.

(** A [Value] sends nothing, whatever it finds behind its pointers. *)
Lemma unmarshalAt_sent (raw : string) (value : loc) (w : World T) :
  sent (unmarshalAt raw value w).1 = sent w.
Proof.
  unfold unmarshalAt. destruct (heap w !! value) as [target|]; [|done].
  by destruct (Unmarshal raw target).
Qed.

Lemma Value_sent (result value : loc) (w : World T) :
  sent (KVResult_Value result value w).1 = sent w
  ∧ sent (Event_Value result value w).1 = sent w
  ∧ sent (GraphResult_Value result value w).1 = sent w.
Proof.
  unfold KVResult_Value, Event_Value, GraphResult_Value. go_unfold.
  destruct (heap w !! result) as [[p|r|r|e|t]|]; simpl;
    rewrite ?unmarshalAt_sent; done.
Qed.


(** X3.  Reading writes next to nothing.  [Get] leaves every object the
    caller holds as it was: the address it reads through, and writes the
    ref into, is a new one of its own making.  [GetPath] leaves every
    object other than the address behind its pointer as it was. *)
Theorem reads_keep_objects (l : loc) (c : Cell T) (w : World T) :
  heap w !! l = Some c →
  (∀ collection key, heap (Get transport collection key w).1 !! l = Some c)
  ∧ (∀ path, l ≠ path → heap (GetPath transport path w).1 !! l = Some c).
Proof.
  intros Hl. split.
  - intros collection key.
    destruct (Get_run transport collection key w) as [-> Hp].
    assert (l ≠ fresh (dom (heap w))) as Hfresh.
    { intros ->. apply (is_fresh (dom (heap w))). apply elem_of_dom. eauto. }
    rewrite (GetPath_heap_other _ _ _ _ Hp) by done. simpl.
    by rewrite lookup_insert_ne.
  - intros path Hother.
    destruct (heap w !! path) as [[p| | | |]|] eqn:Hp;
      [by rewrite (GetPath_heap_other _ _ _ _ Hp)|..];
      unfold GetPath; go_unfold; by rewrite Hp.
Qed.

End ClientMore.

(** ** The further properties against the canned service *)

Lemma transport_failure_surfaces_witness :
  runnable (OpGetPath 1%positive) readingWorld
  ∧ (∀ call, unreachable "connection refused" (sent readingWorld) call
             = Failed "connection refused")
  ∧ ∃ w',
      perform (errorDecoder := rejecting) (listDecoder := rejecting)
        (eventsDecoder := rejecting) (graphDecoder := rejecting)
        (unreachable "connection refused") (OpGetPath 1%positive) readingWorld
      = (w', Returns (Some (TransportError "connection refused"))).
Proof.
  assert (runnable (OpGetPath 1%positive) readingWorld) as Hrun
    by (eexists; reflexivity).
  assert (∀ call, unreachable "connection refused" (sent readingWorld) call
                  = Failed "connection refused") as Hfail
    by (intros call; reflexivity).
  split; [exact Hrun|]. split; [exact Hfail|].
  exact (transport_failure_surfaces (errorDecoder := rejecting) (listDecoder := rejecting)
           (eventsDecoder := rejecting) (graphDecoder := rejecting)
           (unreachable "connection refused") (OpGetPath 1%positive) readingWorld
           "connection refused" Hrun Hfail).
Defined.

Lemma GetPath_failure_keeps_path_witness :
  heap readingWorld !! 1%positive = Some (PathCell (mkPath "col" "key" ""))
  ∧ GetPath (errorDecoder := rejecting) (answering (found "/v0/col" "{}"))
      1%positive readingWorld
    = (after readingWorld (mkCall "GET" "col/key" ∅ None), Panics "index out of range")
  ∧ (∀ r : KVResult,
       Panics (A := option KVResult * option error) "index out of range"
       ≠ Returns (Some r, None))
  ∧ heap (after readingWorld (mkCall "GET" "col/key" ∅ None)) = heap readingWorld.
Proof.
  assert (heap readingWorld !! 1%positive = Some (PathCell (mkPath "col" "key" "")))
    as Hp by reflexivity.
  assert (GetPath (errorDecoder := rejecting) (answering (found "/v0/col" "{}"))
            1%positive readingWorld
          = (after readingWorld (mkCall "GET" "col/key" ∅ None),
             Panics "index out of range")) as Hrun by reflexivity.
  assert (∀ r : KVResult,
            Panics (A := option KVResult * option error) "index out of range"
            ≠ Returns (Some r, None)) as Hfail
    by (intros r Hr; discriminate Hr).
  split; [exact Hp|]. split; [exact Hrun|]. split; [exact Hfail|].
  exact (GetPath_failure_keeps_path (errorDecoder := rejecting)
           (answering (found "/v0/col" "{}")) 1%positive (mkPath "col" "key" "")
           readingWorld _ _ Hp Hrun Hfail).
Defined.

Lemma GetPath_pins_address_witness :
  heap readingWorld !! 1%positive = Some (PathCell (mkPath "col" "key" ""))
  ∧ Ref (mkPath "col" "key" "") = ""
  ∧ GetPath (errorDecoder := rejecting)
      (answering (found "/v0/col/key/refs/abc123" "{}")) 1%positive readingWorld
    = (mkWorld (T := unit) [mkCall "GET" "col/key" ∅ None]
         {[ 1%positive := PathCell (mkPath "col" "key" "abc123") ]},
       Returns (Some (mkKVResult (mkPath "col" "key" "abc123") "{}"), None))
  ∧ Ref (KVResult_Path (mkKVResult (mkPath "col" "key" "abc123") "{}")) ≠ ""
  ∧ sent (GetPath (errorDecoder := rejecting)
            (answering (found "/v0/col/key/refs/abc123" "{}")) 1%positive
            (mkWorld (T := unit) [mkCall "GET" "col/key" ∅ None]
               {[ 1%positive := PathCell (mkPath "col" "key" "abc123") ]})).1
    = [mkCall "GET" "col/key" ∅ None; mkCall "GET" "col/key/refs/abc123" ∅ None].
Proof.
  assert (heap readingWorld !! 1%positive = Some (PathCell (mkPath "col" "key" "")))
    as Hp by reflexivity.
  assert (GetPath (errorDecoder := rejecting)
            (answering (found "/v0/col/key/refs/abc123" "{}")) 1%positive readingWorld
          = (mkWorld (T := unit) [mkCall "GET" "col/key" ∅ None]
               {[ 1%positive := PathCell (mkPath "col" "key" "abc123") ]},
             Returns (Some (mkKVResult (mkPath "col" "key" "abc123") "{}"), None)))
    as Hrun by (vm_compute; reflexivity).
  assert (Ref (KVResult_Path (mkKVResult (mkPath "col" "key" "abc123") "{}")) ≠ "")
    as Hpinned by discriminate.
  split; [exact Hp|]. split; [reflexivity|]. split; [exact Hrun|].
  split; [exact Hpinned|].
  exact (proj1 (proj2 (GetPath_pins_address (errorDecoder := rejecting)
                         (answering (found "/v0/col/key/refs/abc123" "{}"))
                         1%positive (mkPath "col" "key" "") readingWorld _ _
                         Hp eq_refl Hrun Hpinned))).
Defined.

Lemma written_address_serves_witness :
  doPut (T := unit) (errorDecoder := rejecting)
    (answering (created "/v0/col/key/refs/abc123"))
    (mkPath "col" "key" "old") ∅ "{}" emptyWorld
  = (after emptyWorld (mkCall "PUT" "col/key" ∅ (Some "{}")),
     Returns (Some (mkPath "col" "key" "abc123"), None))
  ∧ sent (PutIfUnmodifiedRaw (T := unit) (errorDecoder := rejecting)
            (answering (created "/v0/col/key/refs/abc123"))
            (mkPath "col" "key" "abc123") "[]"
            (after emptyWorld (mkCall "PUT" "col/key" ∅ (Some "{}")))).1
    = [mkCall "PUT" "col/key" ∅ (Some "{}");
       mkCall "PUT" "col/key"
         {[ "If-Match" := String "034" ("abc123" +:+ String "034" "") ]} (Some "[]")].
Proof.
  assert (doPut (T := unit) (errorDecoder := rejecting)
            (answering (created "/v0/col/key/refs/abc123"))
            (mkPath "col" "key" "old") ∅ "{}" emptyWorld
          = (after emptyWorld (mkCall "PUT" "col/key" ∅ (Some "{}")),
             Returns (Some (mkPath "col" "key" "abc123"), None))) as Hrun
    by reflexivity.
  split; [exact Hrun|].
  destruct (written_address_serves (T := unit) (errorDecoder := rejecting)
              (answering (created "/v0/col/key/refs/abc123"))
              (mkPath "col" "key" "old") (mkPath "col" "key" "abc123") ∅ "{}"
              emptyWorld _ Hrun) as (_ & _ & Hput & _).
  exact (Hput "[]" (after emptyWorld (mkCall "PUT" "col/key" ∅ (Some "{}")))).
Defined.

Lemma undecodable_results_witness :
  (∀ call, answering (found "" "{") (sent (emptyWorld (T := unit))) call
           = Responded (found "" "{"))
  ∧ StatusCode (found "" "{") = 200%Z
  ∧ truncating (Resp_Body (found "" "{")) zeroKVResults
    = (mkKVResults 7 [] "", Some (JSONError "unexpected EOF"))
  ∧ (doList (T := unit) (errorDecoder := rejecting) (listDecoder := truncating)
       (answering (found "" "{")) "col?limit=2" emptyWorld).2
    = Returns (Some (mkKVResults 7 [] ""), Some (JSONError "unexpected EOF"))
  ∧ (doGetEvents (T := unit) (errorDecoder := rejecting) (eventsDecoder := rejecting)
       (answering (found "" "{")) "col?limit=2" emptyWorld).2
    = Returns (None, Some (JSONError "invalid character")).
Proof.
  assert (∀ call, answering (found "" "{") (sent (emptyWorld (T := unit))) call
                  = Responded (found "" "{")) as Hresp
    by (intros call; reflexivity).
  assert (StatusCode (found "" "{") = 200%Z) as Hstatus by reflexivity.
  destruct (undecodable_results (T := unit) (errorDecoder := rejecting)
              (listDecoder := truncating) (eventsDecoder := rejecting)
              (graphDecoder := rejecting) (answering (found "" "{"))
              "col?limit=2" "col" "key" ["friends"] emptyWorld (found "" "{")
              Hresp Hstatus) as (Hlist & Hevents & _).
  split; [exact Hresp|]. split; [exact Hstatus|]. split; [reflexivity|].
  split.
  - exact (Hlist (mkKVResults 7 [] "") (JSONError "unexpected EOF") eq_refl).
  - exact (Hevents zeroEventResults (JSONError "invalid character") eq_refl).
Defined.

Lemma ListGetNext_by_length_witness :
  String.length (Next (mkKVResults 2 [] "/v0")) < 4
  ∧ HasNext (mkKVResults 2 [] "/v0") = true
  ∧ ListGetNext (T := unit) (errorDecoder := rejecting) (listDecoder := rejecting)
      (answering (notFound "")) (mkKVResults 2 [] "/v0") emptyWorld
    = (emptyWorld, Panics "slice bounds out of range")
  ∧ 4 ≤ String.length (Next (mkKVResults 2 [] "next?limit=2"))
  ∧ ∃ prefix rest,
      Next (mkKVResults 2 [] "next?limit=2") = prefix +:+ rest
      ∧ String.length prefix = 4
      ∧ sent (ListGetNext (T := unit) (errorDecoder := rejecting)
                (listDecoder := rejecting) (answering (notFound ""))
                (mkKVResults 2 [] "next?limit=2") emptyWorld).1
        = sent (emptyWorld (T := unit)) ++ [mkCall "GET" rest ∅ None].
Proof.
  assert (String.length (Next (mkKVResults 2 [] "/v0")) < 4) as Hshort
    by (simpl; lia).
  assert (4 ≤ String.length (Next (mkKVResults 2 [] "next?limit=2"))) as Hlong
    by (simpl; lia).
  split; [exact Hshort|]. split; [reflexivity|]. split; [|split; [exact Hlong|]].
  - exact (proj1 (ListGetNext_by_length (T := unit) (errorDecoder := rejecting)
                    (listDecoder := rejecting) (answering (notFound ""))
                    (mkKVResults 2 [] "/v0") emptyWorld) Hshort).
  - exact (proj2 (ListGetNext_by_length (T := unit) (errorDecoder := rejecting)
                    (listDecoder := rejecting) (answering (notFound ""))
                    (mkKVResults 2 [] "next?limit=2") emptyWorld) Hlong).
Defined.

Lemma written_ref_position_witness :
  answering (created "/v0/col/key/refs/abc123/history") (sent (emptyWorld (T := unit)))
    (mkCall "PUT" (trailingPutURI (mkPath "col" "key" "")) ∅ (Some "{}"))
  = Responded (created "/v0/col/key/refs/abc123/history")
  ∧ doPut (T := unit) (errorDecoder := rejecting)
      (answering (created "/v0/col/key/refs/abc123/history"))
      (mkPath "col" "key" "") ∅ "{}" emptyWorld
    = (after emptyWorld (mkCall "PUT" "col/key" ∅ (Some "{}")),
       Returns (Some (mkPath "col" "key" "abc123/"), None))
  ∧ ∃ before after,
      HeaderGet (created "/v0/col/key/refs/abc123/history") "Location"
      = (before +:+ "/") +:+ Ref (mkPath "col" "key" "abc123/") +:+ after
      ∧ countByte slash before = 4
      ∧ ((occurs slash (Ref (mkPath "col" "key" "abc123/")) = false ∧ after = "")
         ∨ ∃ body, Ref (mkPath "col" "key" "abc123/") = body +:+ "/"
                   ∧ occurs slash body = false).
Proof.
  assert (doPut (T := unit) (errorDecoder := rejecting)
            (answering (created "/v0/col/key/refs/abc123/history"))
            (mkPath "col" "key" "") ∅ "{}" emptyWorld
          = (after emptyWorld (mkCall "PUT" "col/key" ∅ (Some "{}")),
             Returns (Some (mkPath "col" "key" "abc123/"), None))) as Hrun
    by reflexivity.
  split; [reflexivity|]. split; [exact Hrun|].
  exact (written_ref_position (T := unit) (errorDecoder := rejecting)
           (answering (created "/v0/col/key/refs/abc123/history"))
           (mkPath "col" "key" "") (mkPath "col" "key" "abc123/") ∅ "{}"
           emptyWorld _ (created "/v0/col/key/refs/abc123/history") eq_refl Hrun).
Defined.

Lemma read_paths_distinct_witness :
  occurs slash "users" = false ∧ occurs slash "ada" = false
  ∧ occurs slash "" = false ∧ occurs slash "9c1b" = false
  ∧ mkPath "users" "ada" "" ≠ mkPath "users" "ada" "9c1b"
  ∧ trailingGetURI (mkPath "users" "ada" "")
    ≠ trailingGetURI (mkPath "users" "ada" "9c1b").
Proof.
  assert (mkPath "users" "ada" "" ≠ mkPath "users" "ada" "9c1b") as Hne
    by discriminate.
  repeat (split; [reflexivity|]). split; [exact Hne|].
  exact (read_paths_distinct (mkPath "users" "ada" "") (mkPath "users" "ada" "9c1b")
           eq_refl eq_refl eq_refl eq_refl eq_refl eq_refl Hne).
Defined.

Lemma unencodable_value_not_sent_witness :
  selective false = ("", Some "json: unsupported value")
  ∧ Put (T := unit) (errorDecoder := rejecting) (encoder := selective)
      (answering (created "/v0/col/key/refs/abc123")) "col" "key" false emptyWorld
    = (emptyWorld, Returns (None, Some (JSONError "json: unsupported value")))
  ∧ PutEvent (T := unit) (errorDecoder := rejecting) (encoder := selective)
      (answering (created "/v0/col/key/refs/abc123")) "col" "key" "login" false
      emptyWorld
    = (emptyWorld, Returns (Some (JSONError "json: unsupported value"))).
Proof.
  split; [reflexivity|].
  destruct (unencodable_value_not_sent (T := unit) (errorDecoder := rejecting)
              (encoder := selective) (answering (created "/v0/col/key/refs/abc123"))
              (λ i _, "") (λ _, "") (mkPath "col" "key" "") "col" "key" "login" 0%Z
              false "" "json: unsupported value" emptyWorld eq_refl)
    as (Hput & _ & _ & Hevent & _).
  split; [exact Hput|exact Hevent].
Defined.

Lemma no_error_iff_no_content_witness :
  (∃ resp,
     answering (mkResponse "204 No Content" 204 ∅ (mkBody "" None))
       (sent (emptyWorld (T := unit))) (mkCall "DELETE" "col/key" ∅ None)
     = Responded resp
     ∧ StatusCode resp = 204%Z)
  ∧ (doDelete (T := unit) (errorDecoder := rejecting)
       (answering (mkResponse "204 No Content" 204 ∅ (mkBody "" None)))
       "col/key" ∅ emptyWorld).2
    = Returns None.
Proof.
  assert (∃ resp,
            answering (mkResponse "204 No Content" 204 ∅ (mkBody "" None))
              (sent (emptyWorld (T := unit))) (mkCall "DELETE" "col/key" ∅ None)
            = Responded resp
            ∧ StatusCode resp = 204%Z) as Hok
    by (eexists; split; reflexivity).
  split; [exact Hok|].
  exact (proj2 (proj1 (no_error_iff_no_content (T := unit) (errorDecoder := rejecting)
                         (answering (mkResponse "204 No Content" 204 ∅ (mkBody "" None)))
                         "col/key" "{}" "users" "ada" "friend" "users" "bob" ∅
                         emptyWorld)) Hok).
Defined.

Lemma Value_writes_only_target_witness :
  heap decodingWorld !! 1%positive = Some heldResult
  ∧ envelopeValue (unmarshaler := halting) heldResult
    = Some ("{", KVResult_Value (unmarshaler := halting))
  ∧ sent (KVResult_Value (unmarshaler := halting) 1%positive 2%positive
            decodingWorld).1
    = sent decodingWorld
  ∧ ∀ l, l ≠ 2%positive →
      heap (KVResult_Value (unmarshaler := halting) 1%positive 2%positive
              decodingWorld).1 !! l
      = heap decodingWorld !! l.
Proof.
  assert (heap decodingWorld !! 1%positive = Some heldResult) as Hr by reflexivity.
  assert (envelopeValue (unmarshaler := halting) heldResult
          = Some ("{", KVResult_Value (unmarshaler := halting))) as Henv
    by reflexivity.
  split; [exact Hr|]. split; [exact Henv|].
  exact (Value_writes_only_target (unmarshaler := halting) 1%positive 2%positive
           heldResult "{" (KVResult_Value (unmarshaler := halting)) decodingWorld
           Hr Henv).
Defined.


Lemma reads_keep_objects_witness :
  heap twoAddressWorld !! 1%positive = Some (PathCell (mkPath "col" "key" ""))
  ∧ heap (Get (errorDecoder := rejecting)
            (answering (found "/v0/col/key/refs/abc123" "{}")) "col" "key"
            twoAddressWorld).1 !! 1%positive
    = Some (PathCell (mkPath "col" "key" ""))
  ∧ 1%positive ≠ 2%positive
  ∧ heap (GetPath (errorDecoder := rejecting)
            (answering (found "/v0/col/other/refs/abc123" "{}")) 2%positive
            twoAddressWorld).1 !! 2%positive
    = Some (PathCell (mkPath "col" "other" "abc123"))
  ∧ heap (GetPath (errorDecoder := rejecting)
            (answering (found "/v0/col/other/refs/abc123" "{}")) 2%positive
            twoAddressWorld).1 !! 1%positive
    = Some (PathCell (mkPath "col" "key" "")).
Proof.
  assert (heap twoAddressWorld !! 1%positive = Some (PathCell (mkPath "col" "key" "")))
    as Hl by reflexivity.
  assert (1%positive ≠ 2%positive) as Hne by discriminate.
  split; [exact Hl|]. split; [|split; [exact Hne|split; [vm_compute; reflexivity|]]].
  - exact (proj1 (reads_keep_objects (errorDecoder := rejecting)
                    (answering (found "/v0/col/key/refs/abc123" "{}"))
                    1%positive _ twoAddressWorld Hl) "col" "key").
  - exact (proj2 (reads_keep_objects (errorDecoder := rejecting)
                    (answering (found "/v0/col/other/refs/abc123" "{}"))
                    1%positive _ twoAddressWorld Hl) 2%positive Hne).
Defined.
